(** * aiwf: the market-research / commerce-influencer workflows

    A shallow embedding of the two Mastra workflows of the repository,
    [src/mastra/workflows/commerce-influencer.ts] and its generic sibling
    (the market-research workflow), together with the properties their
    specification states about them.

    Conventions of the embedding.
    - JavaScript strings are Rocq [string]s holding the UTF-8 bytes of the
      text.  The code only concatenates and joins strings, compares them
      with "", and searches for the ASCII patterns "search" and "gpt-5";
      all of these agree on UTF-8 bytes and on UTF-16 code units.
    - Values that cross a boundary untyped (the reply of the model, the
      workflow input) are [json] values; a zod schema [z.ZodType<T>] is its
      [parse] function, [json -> result T].
    - [async] code that calls the model, the webhook or the console is
      written in the monad [M]: it returns the ordered list of effects it
      performed together with its result or the error it threw.
    - The external clients ([generateText], [generateObject], [JSON.parse],
      [JSON.stringify], [IncomingWebhook.send]) are fields of a [World]. *)

From Stdlib Require Import String Ascii List Bool Arith ZArith QArith Lia DecimalString.
From stdpp Require Import base list strings.
Import ListNotations.

Local Open Scope string_scope.
Local Open Scope list_scope.
Set Warnings "-register-all".

(** ** JavaScript strings *)

(** [s.startsWith(p)] *)
Definition startsWith (p s : string) : bool := String.prefix p s.

(** [s.includes(p)] *)
Fixpoint includes (p s : string) : bool :=
  String.prefix p s ||
  match s with
  | EmptyString => false
  | String _ s' => includes p s'
  end.

(** [l.join(sep)] on an array of strings *)
Definition join (sep : string) (l : list string) : string := String.concat sep l.

(** A template literal [`${n}`] for an integer [n]. *)
Definition numberToString (n : Z) : string :=
  NilZero.string_of_int (Z.to_int n).

(** String literals of the source that contain double quotes are written
    with a backquote in their place; [q] puts the double quotes back.  (No
    string of the source contains a backquote.) *)
Fixpoint q (s : string) : string :=
  match s with
  | EmptyString => EmptyString
  | String c s' => String (if Ascii.eqb c "`" then ascii_of_nat 34 else c) (q s')
  end.

Definition nl : string := String (ascii_of_nat 10) EmptyString.

(** Truthiness of a string: only "" is falsy. *)
Definition truthy (s : string) : bool :=
  match s with EmptyString => false | String _ _ => true end.

(** Specification-level reading of the two string tests. *)
Definition Contains (p s : string) : Prop := exists pre post, s = pre +:+ p +:+ post.
Definition StartsWith (p s : string) : Prop := exists post, s = p +:+ post.

(** ** Errors and results *)

Inductive JsError :=
| SyntaxError (message : string)    (* thrown by [JSON.parse] *)
| ZodError (message : string)       (* thrown by [schema.parse] *)
| Error (message : string)          (* [new Error(message)] *)
| UpstreamError (message : string). (* thrown by the model or webhook client *)

Definition message (e : JsError) : string :=
  match e with
  | SyntaxError m | ZodError m | Error m | UpstreamError m => m
  end.

(** The specification's taxonomy: a failure to parse or validate model
    output is a [ValidationError]; a failure of an external call is an
    [UpstreamError]. *)
Definition isValidationError (e : JsError) : bool :=
  match e with
  | UpstreamError _ => false
  | _ => true
  end.

Inductive result (A : Type) :=
| Ok (a : A)
| Err (e : JsError).
Arguments Ok {A} a.
Arguments Err {A} e.

#[global] Instance result_ret : MRet result := fun A a => Ok a.
#[global] Instance result_bind : MBind result := fun A B f r =>
  match r with
  | Ok a => f a
  | Err e => Err e
  end.
#[global] Instance result_fmap : FMap result := fun A B f r =>
  match r with
  | Ok a => Ok (f a)
  | Err e => Err e
  end.

Definition isOk {A} (r : result A) : bool :=
  match r with Ok _ => true | Err _ => false end.

(** ** JSON values *)

Inductive json :=
| JUndefined                         (* a missing property *)
| JNull
| JBool (b : bool)
| JNum (q : Q)
| JStr (s : string)
| JArr (l : list json)
| JObj (fields : list (string * json)).

(** [o[k]]: the first binding of [k], [undefined] when there is none.  (An
    object that [JSON.parse] answers lists each key once.) *)
Fixpoint prop (k : string) (fields : list (string * json)) : json :=
  match fields with
  | [] => JUndefined
  | (k', v) :: rest => if String.eqb k k' then v else prop k rest
  end.

(** Building an object literal: a property whose value is [undefined] is
    left out, as [JSON.stringify] and zod both treat it as missing. *)
Definition JObj_of (fields : list (string * json)) : json :=
  JObj (List.filter (fun kv => match snd kv with JUndefined => false | _ => true end) fields).

Definition opt {A} (f : A -> json) (o : option A) : json :=
  match o with
  | None => JUndefined
  | Some a => f a
  end.

(** ** zod schemas, as parsers *)

Definition Schema (T : Type) : Type := json -> result T.

Definition invalid {T} (what : string) : result T := Err (ZodError what).

Definition z_string : Schema string := fun v =>
  match v with
  | JStr s => Ok s
  | _ => invalid "Expected string"
  end.

(** [z.string().min(n, msg)].  The length is counted in bytes; the code
    only uses [n = 1], where every way of counting agrees. *)
Definition z_string_min (n : nat) (msg : string) : Schema string := fun v =>
  s ← z_string v;
  if Nat.leb n (String.length s) then Ok s else invalid msg.

Definition z_boolean : Schema bool := fun v =>
  match v with
  | JBool b => Ok b
  | _ => invalid "Expected boolean"
  end.

(** [z.number().int().min(lo).max(hi)] *)
Definition z_int_range (lo hi : Z) : Schema Z := fun v =>
  match v with
  | JNum q =>
      let r := Qred q in
      if negb (Pos.eqb (Qden r) 1) then invalid "Expected integer"
      else if (Qnum r <? lo)%Z then invalid "Number must be greater than or equal to min"
      else if (hi <? Qnum r)%Z then invalid "Number must be less than or equal to max"
      else Ok (Qnum r)
  | _ => invalid "Expected number"
  end.

Fixpoint parseAll {T} (s : Schema T) (l : list json) : result (list T) :=
  match l with
  | [] => Ok []
  | x :: rest => y ← s x; ys ← parseAll s rest; Ok (y :: ys)
  end.

(** [z.array(s)] *)
Definition z_array {T} (s : Schema T) : Schema (list T) := fun v =>
  match v with
  | JArr l => parseAll s l
  | _ => invalid "Expected array"
  end.

(** [.min(n)] and [.max(n)] on an array schema *)
Definition z_min {T} (n : nat) (s : Schema (list T)) : Schema (list T) := fun v =>
  l ← s v;
  if Nat.leb n (length l) then Ok l else invalid "Array must contain at least min element(s)".

Definition z_max {T} (n : nat) (s : Schema (list T)) : Schema (list T) := fun v =>
  l ← s v;
  if Nat.leb (length l) n then Ok l else invalid "Array must contain at most max element(s)".

(** [.optional()] *)
Definition z_optional {T} (s : Schema T) : Schema (option T) := fun v =>
  match v with
  | JUndefined => Ok None
  | _ => Some <$> s v
  end.

(** [.nullable()] *)
Definition z_nullable {T} (s : Schema T) : Schema (option T) := fun v =>
  match v with
  | JNull => Ok None
  | _ => Some <$> s v
  end.

(** [.default(d)] *)
Definition z_default {T} (d : T) (s : Schema T) : Schema T := fun v =>
  match v with
  | JUndefined => Ok d
  | _ => s v
  end.

(** [z.object({...})]: the value must be an object; its properties are
    then read with [field].  Unknown properties are dropped. *)
Definition z_object (v : json) : result (list (string * json)) :=
  match v with
  | JObj fields => Ok fields
  | _ => invalid "Expected object"
  end.

Definition field {T} (o : list (string * json)) (k : string) (s : Schema T) : result T :=
  s (prop k o).

(** ** The data model (the types inferred from the schemas)

    Both workflow files declare the same record shapes.  They differ in one
    field: the generic market-research workflow declares [currency] as
    [z.string().nullable().optional()], the commerce-influencer workflow as
    [z.string().optional()]. *)

Inductive Variant := CommerceInfluencer | MarketResearch.

Inductive Language := ja | en.

Record Influencer := {
  name : string;
  platform : option string;
  handle : option string;
  followers : option string;
  positioning : option string;
}.

Record BaseCase := {
  brand : string;
  campaignName : string;
  geography : string;
  timeframe : option string;
  summary : string;
  productFocus : option string;
  offerType : option string;
  influencers : list Influencer;
  sources : option (list string);
}.

(** [currency]: [None] is [undefined], [Some None] is [null] (which only the
    market-research schema lets through), [Some (Some s)] is the string [s].
    [metricTimeframe] is the property [timeframe] of a metric. *)
Record Metric := {
  metric : string;
  value : string;
  currency : option (option string);
  metricTimeframe : option string;
  note : option string;
}.

(** [baseCaseSchema.extend({ metrics })]: the fields of a [BaseCase] and
    [metrics] side by side in one object. *)
Record EnrichedCase := {
  base : BaseCase;
  metrics : list Metric;
}.

(** [CaseList] and [EnrichedCaseList], the types the adapter is called at. *)
Record CaseList := { caseList : list BaseCase }.
Record EnrichedCaseList := { enrichedCaseList : list EnrichedCase }.

(** ** The schemas *)

Definition languageSchema : Schema Language := fun v =>
  match v with
  | JStr "ja" => Ok ja
  | JStr "en" => Ok en
  | _ => invalid "Invalid enum value"
  end.

Definition influencerSchema : Schema Influencer := fun v =>
  o ← z_object v;
  name ← field o "name" z_string;
  platform ← field o "platform" (z_optional z_string);
  handle ← field o "handle" (z_optional z_string);
  followers ← field o "followers" (z_optional z_string);
  positioning ← field o "positioning" (z_optional z_string);
  Ok {| name := name; platform := platform; handle := handle;
        followers := followers; positioning := positioning |}.

Definition baseCaseSchema : Schema BaseCase := fun v =>
  o ← z_object v;
  brand ← field o "brand" z_string;
  campaignName ← field o "campaignName" z_string;
  geography ← field o "geography" z_string;
  timeframe ← field o "timeframe" (z_optional z_string);
  summary ← field o "summary" z_string;
  productFocus ← field o "productFocus" (z_optional z_string);
  offerType ← field o "offerType" (z_optional z_string);
  influencers ← field o "influencers" (z_min 1 (z_array influencerSchema));
  sources ← field o "sources" (z_optional (z_min 1 (z_array z_string)));
  Ok {| brand := brand; campaignName := campaignName; geography := geography;
        timeframe := timeframe; summary := summary; productFocus := productFocus;
        offerType := offerType; influencers := influencers; sources := sources |}.

Definition currencySchema (v : Variant) : Schema (option (option string)) :=
  match v with
  | CommerceInfluencer => fun j =>
      c ← z_optional z_string j;
      Ok (match c with None => None | Some s => Some (Some s) end)
  | MarketResearch => z_optional (z_nullable z_string)
  end.

Definition metricSchema (v : Variant) : Schema Metric := fun j =>
  o ← z_object j;
  metric ← field o "metric" z_string;
  value ← field o "value" z_string;
  currency ← field o "currency" (currencySchema v);
  timeframe ← field o "timeframe" (z_optional z_string);
  note ← field o "note" (z_optional z_string);
  Ok {| metric := metric; value := value; currency := currency;
        metricTimeframe := timeframe; note := note |}.

Definition enrichedCaseSchema (v : Variant) : Schema EnrichedCase := fun j =>
  b ← baseCaseSchema j;
  o ← z_object j;
  metrics ← field o "metrics" (z_min 1 (z_array (metricSchema v)));
  Ok {| base := b; metrics := metrics |}.

Definition caseListSchema : Schema CaseList := fun j =>
  o ← z_object j;
  cases ← field o "cases" (z_max 6 (z_array baseCaseSchema));
  Ok {| caseList := cases |}.

Definition enrichedCaseListSchema (v : Variant) : Schema EnrichedCaseList := fun j =>
  o ← z_object j;
  cases ← field o "cases" (z_array (enrichedCaseSchema v));
  Ok {| enrichedCaseList := cases |}.

(** ** Typed values as JavaScript objects *)

Definition json_of_language (l : Language) : json :=
  match l with ja => JStr "ja" | en => JStr "en" end.

Definition json_of_strings (l : list string) : json := JArr (map JStr l).

Definition json_of_influencer (i : Influencer) : json :=
  JObj_of [("name", JStr (name i)); ("platform", opt JStr (platform i));
           ("handle", opt JStr (handle i)); ("followers", opt JStr (followers i));
           ("positioning", opt JStr (positioning i))].

Definition baseCase_fields (c : BaseCase) : list (string * json) :=
  [("brand", JStr (brand c)); ("campaignName", JStr (campaignName c));
   ("geography", JStr (geography c)); ("timeframe", opt JStr (timeframe c));
   ("summary", JStr (summary c)); ("productFocus", opt JStr (productFocus c));
   ("offerType", opt JStr (offerType c));
   ("influencers", JArr (map json_of_influencer (influencers c)));
   ("sources", opt json_of_strings (sources c))].

Definition json_of_baseCase (c : BaseCase) : json := JObj_of (baseCase_fields c).

Definition json_of_metric (m : Metric) : json :=
  JObj_of [("metric", JStr (metric m)); ("value", JStr (value m));
           ("currency", opt (fun c => match c with None => JNull | Some s => JStr s end)
                            (currency m));
           ("timeframe", opt JStr (metricTimeframe m)); ("note", opt JStr (note m))].

Definition json_of_enrichedCase (c : EnrichedCase) : json :=
  JObj_of (baseCase_fields (base c) ++ [("metrics", JArr (map json_of_metric (metrics c)))]).

(** ** Effects *)

(** The argument of [generateText] and [generateObject]. *)
Record GenerateParams := {
  model : string;
  system : string;
  prompt : string;
}.

(** A Slack block: [{ type: 'header', text: { type: 'plain_text', text } }]
    or [{ type: 'section', text: { type: 'mrkdwn', text } }]. *)
Inductive Block :=
| HeaderBlock (text : string)
| SectionBlock (text : string).

(** [new IncomingWebhook(url, { username })] *)
Record IncomingWebhook := {
  url : string;
  username : string;
}.

(** What a run does to the outside, in order. *)
Inductive Event :=
| GenerateText (p : GenerateParams)
| GenerateObject (p : GenerateParams)
| ConsoleError (msg : string)
| ConsoleWarn (msg : string)
| WebhookSend (hook : IncomingWebhook) (text : string) (blocks : list Block).

Definition isModelCall (ev : Event) : bool :=
  match ev with
  | GenerateText _ | GenerateObject _ => true
  | _ => false
  end.

Definition isNetworkCall (ev : Event) : bool :=
  match ev with
  | GenerateText _ | GenerateObject _ | WebhookSend _ _ _ => true
  | _ => false
  end.

(** The outside world: what each external call answers.  [generateObject]
    is generic in the source; the workflows call it at [CaseList] and at
    [EnrichedCaseList], and the world has one field for each.  A failing
    call answers [Err]. *)
Record World := {
  JSON_parse : string -> result json;
  JSON_stringify : json -> string;
  generateText : GenerateParams -> result string;
  generateObject_CaseList : Schema CaseList -> GenerateParams -> result CaseList;
  generateObject_EnrichedCaseList :
    Schema EnrichedCaseList -> GenerateParams -> result EnrichedCaseList;
  send : IncomingWebhook -> string -> list Block -> result unit;
}.

(** [env.ts]: the validated process environment. *)
Record Env := {
  OPENAI_API_KEY : string;
  OPENAI_MODEL : string;
  SLACK_WEBHOOK_URL : option string;
  SLACK_USERNAME : option string;
}.

(** An effectful computation: the events it performed and how it ended. *)
Definition M (A : Type) : Type := (list Event * result A)%type.

#[global] Instance M_ret : MRet M := fun A a => ([], Ok a).
#[global] Instance M_bind : MBind M := fun A B f m =>
  match m with
  | (t, Ok a) => let '(t', r) := f a in (t ++ t', r)
  | (t, Err e) => (t, Err e)
  end.

(** One external call: it is recorded, and it answers [r]. *)
Definition perform {A} (ev : Event) (r : result A) : M A := ([ev], r).
Definition throw {A} (e : JsError) : M A := ([], Err e).
Definition liftR {A} (r : result A) : M A := ([], r).

Definition trace {A} (m : M A) : list Event := fst m.
Definition outcome {A} (m : M A) : result A := snd m.

(** ** The structured generation adapter *)

Definition MODEL_NAME (env : Env) : string := OPENAI_MODEL env.

(** commerce-influencer.ts: [MODEL_NAME.includes('search')] *)
Definition isSearchModel (env : Env) : bool :=
  includes "search" (MODEL_NAME env).

(** market-research: [MODEL_NAME.includes('search') || MODEL_NAME.startsWith('gpt-5')] *)
Definition isNonStructuredModel (env : Env) : bool :=
  includes "search" (MODEL_NAME env) || startsWith "gpt-5" (MODEL_NAME env).

(** The test that opens [generateStructuredObject] in each file. *)
Definition textMode (v : Variant) (env : Env) : bool :=
  match v with
  | CommerceInfluencer => isSearchModel env
  | MarketResearch => isNonStructuredModel env
  end.

Definition jsonOnlySystem (system : string) : string :=
  system +:+ nl +:+ nl +:+
  "IMPORTANT: You MUST respond with valid JSON only. Do not include any explanatory text, only valid JSON.".

Definition jsonOnlyPrompt (prompt : string) : string :=
  prompt +:+ nl +:+ nl +:+ "Respond with valid JSON only, no additional text.".

(** What the [catch] block does before it throws: the market-research
    file logs the reply, the commerce-influencer file logs nothing. *)
Definition logParseFailure (v : Variant) (text : string) : M unit :=
  match v with
  | CommerceInfluencer => mret tt
  | MarketResearch =>
      perform (ConsoleError "❌ Model response that failed to parse:") (Ok tt) ≫= λ _,
      perform (ConsoleError text) (Ok tt) ≫= λ _,
      perform (ConsoleError (nl +:+ "❌ Parse error:")) (Ok tt)
  end.

Definition parseFailureMessage (v : Variant) (error : JsError) : string :=
  match v with
  | CommerceInfluencer => "Failed to parse search model response as valid JSON: "
  | MarketResearch => "Failed to parse non-structured model response as valid JSON: "
  end +:+ message error.

Section Adapter.
Context {T : Type}.
Variable w : World.
Variable v : Variant.
Variable env : Env.
(** [generateObject] at the type [T] of the call *)
Variable generateObject : Schema T -> GenerateParams -> result T.

Definition generateStructuredObject (schema : Schema T) (params : GenerateParams) : M T :=
  if textMode v env then
    let request := {| model := model params;
                      system := jsonOnlySystem (system params);
                      prompt := jsonOnlyPrompt (prompt params) |} in
    text ← perform (GenerateText request) (generateText w request);
    match (parsed ← JSON_parse w text; schema parsed) with
    | Ok object => mret object
    | Err error =>
        logParseFailure v text ≫= λ _,
        throw (Error (parseFailureMessage v error))
    end
  else
    perform (GenerateObject params) (generateObject schema params).
End Adapter.

(** [slackWebhook]: present only when [SLACK_WEBHOOK_URL] is set (and
    truthy); the user name falls back with [??]. *)
Definition slackWebhook (env : Env) : option IncomingWebhook :=
  match SLACK_WEBHOOK_URL env with
  | Some u =>
      if truthy u
      then Some {| url := u;
                   username := match SLACK_USERNAME env with
                               | Some n => n
                               | None => "mastra-commerce-workflow"
                               end |}
      else None
  | None => None
  end.

(** ** Steps *)

(** [createStep({ id, description, inputSchema, outputSchema, execute })] *)
Record Step (I O : Type) := {
  id : string;
  description : string;
  inputSchema : Schema I;
  outputSchema : Schema O;
  execute : I -> M O;
}.
Arguments id {I O} _.
Arguments description {I O} _.
Arguments inputSchema {I O} _.
Arguments outputSchema {I O} _.
Arguments execute {I O} _.

(** The workflow input after validation. *)
Record WorkflowInput := {
  focusKeyword : string;
  inputGeography : string;      (* [geography] *)
  minExamples : Z;
  inputLanguage : Language;     (* [language] *)
  inputMetricFocus : list string;   (* [metricFocus] *)
  inputIncludeSources : bool;   (* [includeSources] *)
}.

(** What Stage 1 and Stage 2 hand on: [{ cases, metricFocus, language,
    includeSources }]. *)
Record StageData (C : Type) := {
  cases : list C;
  metricFocus : list string;
  language : Language;
  includeSources : bool;
}.
Arguments cases {C} _.
Arguments metricFocus {C} _.
Arguments language {C} _.
Arguments includeSources {C} _.

(** The workflow result: [{ summary, sentToSlack, cases }]. *)
Record WorkflowResult := {
  resultSummary : string;       (* [summary] *)
  sentToSlack : bool;
  resultCases : list EnrichedCase;  (* [cases] *)
}.

(** The schema written four times in each file, as the output schema of
    Stages 1 and 2 and the input schema of Stages 2 and 3:
    [z.object({ cases: z.array(caseSchema).min(1),
                metricFocus: z.array(z.string()).min(1),
                language: languageSchema, includeSources: z.boolean() })]. *)
Definition stageDataSchema {C} (caseSchema : Schema C) : Schema (StageData C) := fun j =>
  o ← z_object j;
  cases ← field o "cases" (z_min 1 (z_array caseSchema));
  metricFocus ← field o "metricFocus" (z_min 1 (z_array z_string));
  language ← field o "language" languageSchema;
  includeSources ← field o "includeSources" z_boolean;
  Ok {| cases := cases; metricFocus := metricFocus; language := language;
        includeSources := includeSources |}.

Definition json_of_stageData {C} (f : C -> json) (d : StageData C) : json :=
  JObj_of [("cases", JArr (map f (cases d)));
           ("metricFocus", json_of_strings (metricFocus d));
           ("language", json_of_language (language d));
           ("includeSources", JBool (includeSources d))].

(** [language === 'ja' ? 'Japanese' : 'English'] *)
Definition languageName (l : Language) : string :=
  match l with ja => "Japanese" | en => "English" end.

(** ** Stage 1: collecting the cases *)

(** commerce-influencer.ts: [collectCompetitorCasesStep.inputSchema] *)
Definition collectCompetitorCasesStep_inputSchema : Schema WorkflowInput := fun j =>
  o ← z_object j;
  focusKeyword ← field o "focusKeyword" (z_default "コマース x インフルエンサー" z_string);
  geography ← field o "geography" (z_default "Japan" z_string);
  minExamples ← field o "minExamples" (z_default 3%Z (z_int_range 1 6));
  language ← field o "language" (z_default ja languageSchema);
  metricFocus ← field o "metricFocus"
                  (z_default ["売上"; "CVR"; "ROI"] (z_min 1 (z_array z_string)));
  includeSources ← field o "includeSources" (z_default true z_boolean);
  Ok {| focusKeyword := focusKeyword; inputGeography := geography;
        minExamples := minExamples; inputLanguage := language;
        inputMetricFocus := metricFocus; inputIncludeSources := includeSources |}.

(** market-research: [collectCasesStep.inputSchema] *)
Definition collectCasesStep_inputSchema : Schema WorkflowInput := fun j =>
  o ← z_object j;
  focusKeyword ← field o "focusKeyword" (z_string_min 1 "focusKeyword is required");
  geography ← field o "geography" (z_default "Japan" z_string);
  minExamples ← field o "minExamples" (z_default 3%Z (z_int_range 1 6));
  language ← field o "language" (z_default ja languageSchema);
  metricFocus ← field o "metricFocus"
                  (z_default ["売上"; "GMV"; "CVR"] (z_min 1 (z_array z_string)));
  includeSources ← field o "includeSources" (z_default true z_boolean);
  Ok {| focusKeyword := focusKeyword; inputGeography := geography;
        minExamples := minExamples; inputLanguage := language;
        inputMetricFocus := metricFocus; inputIncludeSources := includeSources |}.

Definition collectCompetitorCases_params (env : Env) (inputData : WorkflowInput)
  : GenerateParams :=
  {| model := MODEL_NAME env;
     system := "You are a GTM analyst who researches commerce x influencer collaborations. "
       +:+ "Return only vetted cases from 2021 onward, prioritizing Japan/APAC brands unless told otherwise.";
     prompt := "Focus keyword: " +:+ focusKeyword inputData +:+ nl
       +:+ "Priority region: " +:+ inputGeography inputData +:+ ". "
       +:+ "Provide at least " +:+ numberToString (minExamples inputData)
       +:+ " distinct competitor case studies that match the focus. "
       +:+ "Return concise factual summaries, channels, creator roles, and reliable source URLs. "
       +:+ "Respond in " +:+ languageName (inputLanguage inputData) +:+ "." |}.

Definition collectCases_params (env : Env) (inputData : WorkflowInput) : GenerateParams :=
  {| model := MODEL_NAME env;
     system := "You are a professional market research analyst. "
       +:+ "Research real-world case studies and collaborations from 2021 onward. "
       +:+ "Focus on factual information with verifiable sources. "
       +:+ "Prioritize Japan/APAC region unless specified otherwise. "
       +:+ q "You MUST respond with a JSON object containing a `cases` array, not a bare array.";
     prompt := "Research topic: " +:+ focusKeyword inputData +:+ nl
       +:+ "Target region: " +:+ inputGeography inputData +:+ ". "
       +:+ "Find at least " +:+ numberToString (minExamples inputData)
       +:+ " distinct case studies that match the research topic." +:+ nl
       +:+ nl
       +:+ "Respond in " +:+ languageName (inputLanguage inputData) +:+ "." +:+ nl
       +:+ nl
       +:+ join nl (map q [
         "IMPORTANT: Your response must be a JSON object with the following exact structure:";
         "{";
         "  `cases`: [";
         "    {";
         "      `brand`: `Brand name`,";
         "      `campaignName`: `Campaign name`,";
         "      `geography`: `"]) +:+ inputGeography inputData +:+ join nl (map q [
                                 "`,";
         "      `timeframe`: `2021-2023 (optional)`,";
         "      `summary`: `Detailed summary of the initiative`,";
         "      `productFocus`: `Product category (optional)`,";
         "      `offerType`: `Offer type (optional)`,";
         "      `influencers`: [";
         "        {";
         "          `name`: `Influencer name`,";
         "          `platform`: `Instagram/YouTube/etc (optional)`,";
         "          `handle`: `@username (optional)`,";
         "          `followers`: `1M followers (optional)`,";
         "          `positioning`: `Fashion/Beauty/etc (optional)`";
         "        }";
         "      ],";
         "      `sources`: [`https://source1.com`, `https://source2.com`]";
         "    }";
         "  ]";
         "}";
         "";
         "Each case MUST include: brand, campaignName, geography, summary, and at least one influencer."]) |}.

Section Stage1.
Variable w : World.
Variable env : Env.

Definition collectCompetitorCasesStep : Step WorkflowInput (StageData BaseCase) :=
  {| id := "collect-competitor-cases";
     description := "ChatGPT でコマース x インフルエンサーの他社事例を抽出";
     inputSchema := collectCompetitorCasesStep_inputSchema;
     outputSchema := stageDataSchema baseCaseSchema;
     execute := fun inputData =>
       structured ← generateStructuredObject w CommerceInfluencer env
                      (generateObject_CaseList w) caseListSchema
                      (collectCompetitorCases_params env inputData);
       mret {| cases := caseList structured;
               metricFocus := inputMetricFocus inputData;
               language := inputLanguage inputData;
               includeSources := inputIncludeSources inputData |} |}.

Definition collectCasesStep : Step WorkflowInput (StageData BaseCase) :=
  {| id := "collect-cases";
     description := "ChatGPT で指定キーワードに関連する事例を抽出";
     inputSchema := collectCasesStep_inputSchema;
     outputSchema := stageDataSchema baseCaseSchema;
     execute := fun inputData =>
       structured ← generateStructuredObject w MarketResearch env
                      (generateObject_CaseList w) caseListSchema
                      (collectCases_params env inputData);
       mret {| cases := caseList structured;
               metricFocus := inputMetricFocus inputData;
               language := inputLanguage inputData;
               includeSources := inputIncludeSources inputData |} |}.
End Stage1.

(** The first step of each workflow. *)
Definition collectStep (v : Variant) (w : World) (env : Env)
  : Step WorkflowInput (StageData BaseCase) :=
  match v with
  | CommerceInfluencer => collectCompetitorCasesStep w env
  | MarketResearch => collectCasesStep w env
  end.

(** ** Stage 2: attaching the metrics *)

Definition enrichCases_system (v : Variant) : string :=
  "Act as a revenue operations analyst. "
  +:+ "Enrich each case with concrete numeric KPIs (sales, GMV, conversion, ROI). "
  +:+ "Quote actual historical numbers when publicly reported and note the currency/timeframe. "
  +:+ q "If unavailable, write `情報なし` and explain the gap."
  +:+ match v with
      | CommerceInfluencer => ""
      | MarketResearch =>
          q " You MUST respond with a JSON object containing a `cases` array, not a bare array."
      end.

Definition enrichCases_prompt (v : Variant) (w : World) (inputData : StageData BaseCase)
  : string :=
  "Here is JSON for competitor cases: "
  +:+ JSON_stringify w (JArr (map json_of_baseCase (cases inputData))) +:+ ". "
  +:+ "Focus your numeric extraction on: " +:+ join ", " (metricFocus inputData) +:+ ". "
  +:+ "Write explanations in " +:+ languageName (language inputData) +:+ "."
  +:+ match v with
      | CommerceInfluencer => ""
      | MarketResearch => nl +:+ nl +:+ join nl (map q [
         "IMPORTANT: Your response must be a JSON object with a `cases` property containing an array, like this:";
         "{";
         "  `cases`: [";
         "    {";
         "      `brand`: `...`,";
         "      `campaignName`: `...`,";
         "      `geography`: `...`,";
         "      `summary`: `...`,";
         "      `influencers`: [...],";
         "      `metrics`: [";
         "        {";
         "          `metric`: `売上 or GMV or CVR`,";
         "          `value`: `actual value or 情報なし`,";
         "          `currency`: `JPY/USD (optional)`,";
         "          `timeframe`: `2021-2023 (optional)`,";
         "          `note`: `explanation if unavailable`";
         "        }";
         "      ]";
         "    }";
         "  ]";
         "}"])
      end.

Definition enrichCases_params (v : Variant) (w : World) (env : Env)
    (inputData : StageData BaseCase) : GenerateParams :=
  {| model := MODEL_NAME env;
     system := enrichCases_system v;
     prompt := enrichCases_prompt v w inputData |}.

Definition enrichCasesWithMetricsStep (v : Variant) (w : World) (env : Env)
  : Step (StageData BaseCase) (StageData EnrichedCase) :=
  {| id := "enrich-cases-with-metrics";
     description := "1 の事例に売上やKPIなどの数値情報を追加";
     inputSchema := stageDataSchema baseCaseSchema;
     outputSchema := stageDataSchema (enrichedCaseSchema v);
     execute := fun inputData =>
       structured ← generateStructuredObject w v env
                      (generateObject_EnrichedCaseList w) (enrichedCaseListSchema v)
                      (enrichCases_params v w env inputData);
       mret {| cases := enrichedCaseList structured;
               metricFocus := metricFocus inputData;
               language := language inputData;
               includeSources := includeSources inputData |} |}.

(** ** Stage 3: the summary and the notification *)

(** [x ? f(x) : ''] for an optional string [x]: [undefined], [null] and ""
    are all falsy. *)
Definition whenTruthy (x : option string) (f : string -> string) : string :=
  match x with
  | Some s => if truthy s then f s else ""
  | None => ""
  end.

Definition bulletLabel (language : Language) : string :=
  match language with ja => "主要KPI" | en => "Key KPIs" end.

(** One line of [metrics] in the summary. *)
Definition metricLine (m : Metric) : string :=
  "- " +:+ metric m +:+ ": " +:+ value m
  +:+ whenTruthy (mjoin (currency m)) (fun c => " " +:+ c)
  +:+ whenTruthy (metricTimeframe m) (fun t => " (" +:+ t +:+ ")")
  +:+ whenTruthy (note m) (fun n => "｜" +:+ n).

(** [includeSources && c.sources?.length ? `\n${label}: ${c.sources.join(', ')}` : ''];
    [c.sources?.length] is falsy when there is no [sources] and when it is
    empty. *)
Definition sourcesLine (includeSources : bool) (language : Language) (c : EnrichedCase)
  : string :=
  let urls := default [] (sources (base c)) in
  if includeSources && negb (Nat.eqb (length urls) 0)
  then nl +:+ match language with ja => "参考" | en => "Sources" end
       +:+ ": " +:+ join ", " urls
  else "".

(** The text of case number [idx + 1] in the summary. *)
Definition caseText (includeSources : bool) (language : Language) (idx : nat)
    (c : EnrichedCase) : string :=
  numberToString (Z.of_nat idx + 1) +:+ ". " +:+ brand (base c) +:+ " / "
  +:+ campaignName (base c) +:+ nl
  +:+ summary (base c) +:+ nl
  +:+ bulletLabel language +:+ ":" +:+ nl
  +:+ join nl (map metricLine (metrics c))
  +:+ sourcesLine includeSources language c.

Definition summaryText (includeSources : bool) (language : Language)
    (cases : list EnrichedCase) : string :=
  join (nl +:+ nl) (imap (caseText includeSources language) cases).

Definition headerTitle (language : Language) : string :=
  match language with
  | ja => "コマース x インフルエンサー他社事例"
  | en => "Commerce x Influencer Scan"
  end.

Definition sectionText (language : Language) (idx : nat) (c : EnrichedCase) : string :=
  "*" +:+ numberToString (Z.of_nat idx + 1) +:+ ". " +:+ brand (base c) +:+ " — "
  +:+ campaignName (base c) +:+ "*" +:+ nl
  +:+ summary (base c) +:+ nl
  +:+ bulletLabel language +:+ ": "
  +:+ join " / " (map (fun m => metric m +:+ ": " +:+ value m) (metrics c)).

(** [l.slice(0, n)] *)
Definition slice0 {A} (n : nat) (l : list A) : list A := take n l.

Definition blocks (language : Language) (cases : list EnrichedCase) : list Block :=
  slice0 50 (HeaderBlock (headerTitle language)
             :: imap (fun idx c => SectionBlock (sectionText language idx c)) cases).

Definition skipWarning : string :=
  "SLACK_WEBHOOK_URL が設定されていないため、Slack 送信をスキップしました。".

Definition summarizeAndNotifyStep (v : Variant) (w : World) (env : Env)
  : Step (StageData EnrichedCase) WorkflowResult :=
  {| id := "summarize-and-notify";
     description := "結果を整形してSlack通知";
     inputSchema := stageDataSchema (enrichedCaseSchema v);
     outputSchema := fun j =>
       o ← z_object j;
       summary ← field o "summary" z_string;
       sentToSlack ← field o "sentToSlack" z_boolean;
       cases ← field o "cases" (z_min 1 (z_array (enrichedCaseSchema v)));
       Ok {| resultSummary := summary; sentToSlack := sentToSlack; resultCases := cases |};
     execute := fun inputData =>
       let summary := summaryText (includeSources inputData) (language inputData)
                        (cases inputData) in
       sentToSlack ←
         match slackWebhook env with
         | Some hook =>
             let blocks := blocks (language inputData) (cases inputData) in
             perform (WebhookSend hook summary blocks) (send w hook summary blocks) ≫= λ _,
             mret true
         | None =>
             perform (ConsoleWarn skipWarning) (Ok tt) ≫= λ _,
             mret false
         end;
       mret {| resultSummary := summary; sentToSlack := sentToSlack;
               resultCases := cases inputData |} |}.

(** ** The workflows *)

(** Modelled from the spec: the workflow engine ([createWorkflow], [.then],
    [run.start] of the Mastra library, which is not part of the repository).
    Following the specification (sections 3, 4.5 and 7) and the comments of
    the workflow files, the steps run in order; before a step runs, the
    data handed to it is checked against the step's [inputSchema]; the first
    failure, of a check or of a step, ends the run with that error, and no
    later step runs. *)
Definition runStep {I O} (s : Step I O) (data : json) : M O :=
  inputData ← liftR (inputSchema s data);
  execute s inputData.

(** Modelled from the spec: [createWorkflow({...}).then(step 1).then(step 2)
    .then(step 3)] and [run.start({ inputData })]: the three steps in
    order, each on the result of the one before, written as an object. *)
Definition workflow (v : Variant) (w : World) (env : Env) (inputData : json)
  : M WorkflowResult :=
  out1 ← runStep (collectStep v w env) inputData;
  out2 ← runStep (enrichCasesWithMetricsStep v w env)
           (json_of_stageData json_of_baseCase out1);
  runStep (summarizeAndNotifyStep v w env)
    (json_of_stageData json_of_enrichedCase out2).

Definition commerceInfluencerWorkflow := workflow CommerceInfluencer.
Definition marketResearchWorkflow := workflow MarketResearch.

(** ** The specification's wording, for comparison *)

Definition json_of_caseList (l : CaseList) : json :=
  JObj_of [("cases", JArr (map json_of_baseCase (caseList l)))].

Definition json_of_enrichedCaseList (l : EnrichedCaseList) : json :=
  JObj_of [("cases", JArr (map json_of_enrichedCase (enrichedCaseList l)))].

(** Modelled from the spec: the contract of [generateObject] (the model
    client, which is not part of the repository) at the type [CaseList].
    Section 6 of the specification: in structured mode the inbound response
    is a schema-conforming structured value.  What the call answers is
    what the schema it was given reads from some value. *)
Definition KeepsToCaseListSchema (w : World) : Prop :=
  forall (schema : Schema CaseList) params l,
    generateObject_CaseList w schema params = Ok l -> exists j, schema j = Ok l.

(** Modelled from the spec: the contract of [generateObject] at any type
    (sections 4.1 and 6 of the specification).  The client checks the
    value the model call returned, [reply], against the schema it was
    handed: it answers what the schema reads from that value, and fails
    with a validation error when the schema rejects it. *)
Definition ChecksReply {T} (generateObject : Schema T -> GenerateParams -> result T)
    (schema : Schema T) (params : GenerateParams) (reply : json) : Prop :=
  match schema reply with
  | Ok x => generateObject schema params = Ok x
  | Err _ => exists e, generateObject schema params = Err e /\ isValidationError e = true
  end.

(** The line of a metric as the specification words it:
    [- <name>: <value> [<currency>] [(<timeframe>)] [｜<note>]], a bracketed
    part being left out if the field is absent ([null] counts as absent). *)
Definition specMetricLine (m : Metric) : string :=
  "- " +:+ metric m +:+ ": " +:+ value m
  +:+ match mjoin (currency m) with Some c => " " +:+ c | None => "" end
  +:+ match metricTimeframe m with Some t => " (" +:+ t +:+ ")" | None => "" end
  +:+ match note m with Some n => "｜" +:+ n | None => "" end.

(** An optional string with "" read as absent. *)
Definition nonEmpty (x : option string) : option string :=
  match x with
  | Some s => if truthy s then Some s else None
  | None => None
  end.

Definition dropEmpty (m : Metric) : Metric :=
  {| metric := metric m; value := value m;
     currency := match nonEmpty (mjoin (currency m)) with
                 | Some c => Some (Some c)
                 | None => None
                 end;
     metricTimeframe := nonEmpty (metricTimeframe m);
     note := nonEmpty (note m) |}.

Definition withoutSources (c : EnrichedCase) : EnrichedCase :=
  {| base := {| brand := brand (base c); campaignName := campaignName (base c);
                geography := geography (base c); timeframe := timeframe (base c);
                summary := summary (base c); productFocus := productFocus (base c);
                offerType := offerType (base c); influencers := influencers (base c);
                sources := None |};
     metrics := metrics c |}.

(** The parameters of the Stage 1 call of each workflow. *)
Definition collect_params (v : Variant) (env : Env) (inputData : WorkflowInput)
  : GenerateParams :=
  match v with
  | CommerceInfluencer => collectCompetitorCases_params env inputData
  | MarketResearch => collectCases_params env inputData
  end.

Definition isWebhookSend (ev : Event) : bool :=
  match ev with
  | WebhookSend _ _ _ => true
  | _ => false
  end.

(** What reaches Stage 2, and what reaches Stage 3, in a run of a workflow
    on [inputData]. *)
Definition Stage2Receives (v : Variant) (w : World) (env : Env) (inputData : json)
    (d : StageData BaseCase) : Prop :=
  exists t1 out1,
    runStep (collectStep v w env) inputData = (t1, Ok out1)
    /\ inputSchema (enrichCasesWithMetricsStep v w env)
         (json_of_stageData json_of_baseCase out1) = Ok d.

Definition Stage3Receives (v : Variant) (w : World) (env : Env) (inputData : json)
    (d : StageData EnrichedCase) : Prop :=
  exists d2 t2 out2,
    Stage2Receives v w env inputData d2
    /\ execute (enrichCasesWithMetricsStep v w env) d2 = (t2, Ok out2)
    /\ inputSchema (summarizeAndNotifyStep v w env)
         (json_of_stageData json_of_enrichedCase out2) = Ok d.

(** ** Sample data *)

Definition sampleInfluencer : Influencer :=
  {| name := "Hikakin"; platform := Some "YouTube"; handle := None;
     followers := None; positioning := None |}.

Definition sampleCase : BaseCase :=
  {| brand := "Acme"; campaignName := "Spring Live"; geography := "Japan";
     timeframe := None; summary := "A live-commerce campaign.";
     productFocus := None; offerType := None;
     influencers := [sampleInfluencer];
     sources := Some ["https://a.example"; "https://b.example"] |}.

(** The same case under another brand. *)
Definition renamedCase : BaseCase :=
  {| brand := "Globex"; campaignName := campaignName sampleCase;
     geography := geography sampleCase; timeframe := timeframe sampleCase;
     summary := summary sampleCase; productFocus := productFocus sampleCase;
     offerType := offerType sampleCase; influencers := influencers sampleCase;
     sources := sources sampleCase |}.

(** A case that breaks [influencers: z.array(...).min(1)]. *)
Definition caseWithoutInfluencer : BaseCase :=
  {| brand := "Acme"; campaignName := "Spring Live"; geography := "Japan";
     timeframe := None; summary := "A live-commerce campaign.";
     productFocus := None; offerType := None; influencers := []; sources := None |}.

Definition gmvMetric : Metric :=
  {| metric := "GMV"; value := "120"; currency := Some (Some "JPY");
     metricTimeframe := Some "2023"; note := Some "reported" |}.

(** A rate has no currency; the model answers [currency: ""]. *)
Definition cvrMetric : Metric :=
  {| metric := "CVR"; value := "3%"; currency := Some (Some "");
     metricTimeframe := None; note := None |}.

Definition sampleEnriched : EnrichedCase :=
  {| base := sampleCase; metrics := [gmvMetric; cvrMetric] |}.

Definition renamedEnriched : EnrichedCase :=
  {| base := renamedCase; metrics := [gmvMetric] |}.

Definition chattyReply : string := "Here is the JSON you asked for".

(** The message of the [SyntaxError] that [JSON.parse] throws for a text
    whose first character, an ASCII one, cannot start a JSON value, as the
    JavaScript engine words it: the message quotes the text, whole when it
    has fewer than 21 characters and its first 10 characters otherwise. *)
Definition syntaxErrorMessage (text : string) : string :=
  match text with
  | EmptyString => "Unexpected end of JSON input"
  | String c _ =>
      "Unexpected token '" +:+ String c "', "
      +:+ (if Nat.ltb (String.length text) 21
           then q "`" +:+ text +:+ q "`"
           else q "`" +:+ String.substring 0 10 text +:+ q "`...")
      +:+ " is not valid JSON"
  end.

(** A world whose [generateObject] reads the reply of the provider with the
    schema it is given, and whose [generateText] answers [chattyReply],
    which [JSON.parse] rejects. *)
Definition parsingWorld (casesReply enrichedReply : json) : World :=
  {| JSON_parse := fun text => Err (SyntaxError (syntaxErrorMessage text));
     JSON_stringify := fun _ => "[]";
     generateText := fun _ => Ok chattyReply;
     generateObject_CaseList := fun schema _ => schema casesReply;
     generateObject_EnrichedCaseList := fun schema _ => schema enrichedReply;
     send := fun _ _ _ => Ok tt |}.

(** The world in which the provider replies with the given lists, written
    as objects. *)
Definition sampleWorld (cs : list BaseCase) (es : list EnrichedCase) : World :=
  parsingWorld (json_of_caseList {| caseList := cs |})
    (json_of_enrichedCaseList {| enrichedCaseList := es |}).

(** A world whose model answers [reply] to [generateText], no JSON from its
    first character on. *)
Definition chattyWorld (reply : string) : World :=
  {| JSON_parse := fun text => Err (SyntaxError (syntaxErrorMessage text));
     JSON_stringify := fun _ => "[]";
     generateText := fun _ => Ok reply;
     generateObject_CaseList := fun _ _ => Err (UpstreamError "400 Bad Request");
     generateObject_EnrichedCaseList := fun _ _ => Err (UpstreamError "400 Bad Request");
     send := fun _ _ _ => Ok tt |}.

(** The replies of a model that answers in JSON text, and a world in which
    [generateText] gives them (the second one to the Stage 2 prompt) and
    [JSON.parse] reads them. *)
Definition casesReplyText : string :=
  q "{`cases`:[{`brand`:`Acme`,`campaignName`:`Spring Live`,`geography`:`Japan`,`summary`:`A live-commerce campaign.`,`influencers`:[{`name`:`Hikakin`,`platform`:`YouTube`}],`sources`:[`https://a.example`,`https://b.example`]}]}".

Definition enrichedReplyText : string :=
  q "{`cases`:[{`brand`:`Acme`,`campaignName`:`Spring Live`,`geography`:`Japan`,`summary`:`A live-commerce campaign.`,`influencers`:[{`name`:`Hikakin`,`platform`:`YouTube`}],`sources`:[`https://a.example`,`https://b.example`],`metrics`:[{`metric`:`GMV`,`value`:`120`,`currency`:`JPY`,`timeframe`:`2023`,`note`:`reported`},{`metric`:`CVR`,`value`:`3%`,`currency`:``}]}]}".

Definition textWorld : World :=
  {| JSON_parse := fun text =>
       if String.eqb text casesReplyText
       then Ok (json_of_caseList {| caseList := [sampleCase] |})
       else if String.eqb text enrichedReplyText
       then Ok (json_of_enrichedCaseList {| enrichedCaseList := [sampleEnriched] |})
       else Err (SyntaxError (syntaxErrorMessage text));
     JSON_stringify := fun _ => "[]";
     generateText := fun p =>
       Ok (if startsWith "Act as" (system p) then enrichedReplyText else casesReplyText);
     generateObject_CaseList := fun _ _ => Err (UpstreamError "400 Bad Request");
     generateObject_EnrichedCaseList := fun _ _ => Err (UpstreamError "400 Bad Request");
     send := fun _ _ _ => Ok tt |}.

Definition sampleHook : IncomingWebhook :=
  {| url := "https://hooks.slack.example/T0/B0"; username := "mastra-commerce-workflow" |}.

Definition sampleEnv (modelName : string) (webhook : option string) : Env :=
  {| OPENAI_API_KEY := "sk-test"; OPENAI_MODEL := modelName;
     SLACK_WEBHOOK_URL := webhook; SLACK_USERNAME := None |}.

Definition sampleParams : GenerateParams :=
  {| model := "gpt-4o-mini"; system := "You are an analyst."; prompt := "List the cases." |}.

Definition sampleStage3Input (n : nat) : StageData EnrichedCase :=
  {| cases := repeat sampleEnriched n; metricFocus := ["GMV"]; language := en;
     includeSources := true |}.

(** ** The process environment ([env.ts]) *)

(** [z.string().url()]: whether a string is a URL is decided by the
    platform's URL parser, which is taken as a parameter. *)
Definition z_url (isUrl : string -> bool) : Schema string := fun v =>
  s ← z_string v;
  if isUrl s then Ok s else invalid "Invalid url".

(** [envSchema], applied to [process.env] *)
Definition envSchema (isUrl : string -> bool) : Schema Env := fun j =>
  o ← z_object j;
  key ← field o "OPENAI_API_KEY" (z_string_min 1 "OPENAI_API_KEY is required");
  modelName ← field o "OPENAI_MODEL" (z_default "gpt-4o-mini" z_string);
  webhookUrl ← field o "SLACK_WEBHOOK_URL" (z_optional (z_url isUrl));
  userName ← field o "SLACK_USERNAME" (z_optional z_string);
  Ok {| OPENAI_API_KEY := key; OPENAI_MODEL := modelName;
        SLACK_WEBHOOK_URL := webhookUrl; SLACK_USERNAME := userName |}.

(** ** The runners ([run-commerce-influencer.ts] and its market-research
    sibling) *)

(** [defaultInput], the same object in both runners *)
Definition defaultInput : list (string * json) :=
  [("focusKeyword", JStr "コマース x インフルエンサー");
   ("geography", JStr "Japan");
   ("minExamples", JNum (3 # 1));
   ("language", JStr "ja");
   ("metricFocus", JArr [JStr "売上"; JStr "GMV"; JStr "CVR"]);
   ("includeSources", JBool true)].

(** [k in o] for an own property *)
Fixpoint hasKey (k : string) (fields : list (string * json)) : bool :=
  match fields with
  | [] => false
  | (k', _) :: rest => String.eqb k k' || hasKey k rest
  end.

(** [{ ...a, ...b }]: the keys of [a] in order, each with the value [b]
    gives it if [b] has the key, then the keys of [b] that [a] lacks. *)
Definition spread (a b : list (string * json)) : list (string * json) :=
  map (fun kv => (fst kv, if hasKey (fst kv) b then prop (fst kv) b else snd kv)) a
  ++ List.filter (fun kv => negb (hasKey (fst kv) a)) b.

(** [execution.status] with what comes with it *)
Inductive Execution :=
| Success (result : WorkflowResult)
| Failed (error : JsError)
| Suspended.

(** Modelled from the spec: [run.start({ inputData })] of the workflow
    engine.  A run of these workflows ends in success with the result of
    the last step, or in failure with the error that ended it (no step
    suspends). *)
Definition start (v : Variant) (w : World) (env : Env) (inputData : json)
  : list Event * Execution :=
  let run := workflow v w env inputData in
  (trace run,
   match outcome run with
   | Ok result => Success result
   | Err error => Failed error
   end).

Definition json_of_workflowResult (r : WorkflowResult) : json :=
  JObj_of [("summary", JStr (resultSummary r));
           ("sentToSlack", JBool (sentToSlack r));
           ("cases", JArr (map json_of_enrichedCase (resultCases r)))].

(** What a runner does: it logs to the console (with the arguments of the
    call) and it runs the workflow. *)
Inductive RunnerEvent :=
| ConsoleLog (args : list json)
| Engine (ev : Event).

(** ['='.repeat(60)] *)
Definition rule60 : string := String.concat "" (repeat "=" 60).

(** The lines a runner logs before the run: none in
    [runCommerceInfluencerWorkflow], the banner of
    [runMarketResearchWorkflow]. *)
Definition startBanner (v : Variant) (input : list (string * json)) : list RunnerEvent :=
  match v with
  | CommerceInfluencer => []
  | MarketResearch =>
      [ConsoleLog [JStr rule60];
       ConsoleLog [JStr "Market Research Workflow - Starting"];
       ConsoleLog [JStr rule60];
       ConsoleLog [JStr "Focus Keyword:"; prop "focusKeyword" input];
       ConsoleLog [JStr "Geography:"; prop "geography" input];
       ConsoleLog [JStr "Language:"; prop "language" input];
       ConsoleLog [JStr "Min Examples:"; prop "minExamples" input];
       ConsoleLog [JStr rule60]]
  end.

Definition resultTitle (v : Variant) : string :=
  match v with
  | CommerceInfluencer => "--- Commerce x Influencer Workflow Result ---"
  | MarketResearch => nl +:+ "--- Market Research Workflow Result ---"
  end.

Definition suspendedMessage : string :=
  "Workflow suspended before completion. Check the Mastra dashboard for details.".

(** [runCommerceInfluencerWorkflow(overrides)] and
    [runMarketResearchWorkflow(overrides)].  [stringify2] is
    [JSON.stringify(_, null, 2)]. *)
Definition runWorkflow (v : Variant) (w : World) (env : Env)
    (stringify2 : json -> string) (overrides : list (string * json))
  : list RunnerEvent * result WorkflowResult :=
  let input := spread defaultInput overrides in
  let '(t, execution) := start v w env (JObj input) in
  let events := startBanner v input ++ map Engine t in
  match execution with
  | Success result =>
      (events ++ [ConsoleLog [JStr (resultTitle v)];
                  ConsoleLog [JStr (stringify2 (json_of_workflowResult result))]],
       Ok result)
  | Failed error => (events, Err error)
  | Suspended => (events, Err (Error suspendedMessage))
  end.

Definition runCommerceInfluencerWorkflow := runWorkflow CommerceInfluencer.
Definition runMarketResearchWorkflow := runWorkflow MarketResearch.

(** ** Notions used by the further properties *)

(** The number of events of a kind in a trace. *)
Definition count (p : Event -> bool) (t : list Event) : nat := length (List.filter p t).

(** The typed values that pass their schema when written as objects. *)
Definition validBaseCase (c : BaseCase) : bool :=
  negb (Nat.eqb (length (influencers c)) 0)
  && match sources c with Some [] => false | _ => true end.

Definition validMetric (v : Variant) (m : Metric) : bool :=
  match v, currency m with
  | CommerceInfluencer, Some None => false
  | _, _ => true
  end.

Definition validEnrichedCase (v : Variant) (c : EnrichedCase) : bool :=
  validBaseCase (base c)
  && negb (Nat.eqb (length (metrics c)) 0)
  && forallb (validMetric v) (metrics c).

(** An object made of the fields of a base case, alone or followed by
    [metrics]. *)
Definition caseObject (c : BaseCase) (extra : option (list json)) : json :=
  JObj_of (baseCase_fields c
           ++ match extra with Some x => [("metrics", JArr x)] | None => [] end).

Definition hasWebhook (env : Env) : bool :=
  match slackWebhook env with Some _ => true | None => false end.

(** The model a call names, and whether it is a call of [generateText]. *)
Definition modelOf (ev : Event) : option string :=
  match ev with
  | GenerateText p | GenerateObject p => Some (model p)
  | _ => None
  end.

Definition isTextCall (ev : Event) : bool :=
  match ev with
  | GenerateText _ => true
  | _ => false
  end.

(** A case reduced to what the summary reads from it, and to what the
    blocks read from it. *)
Definition shownInSummary (c : EnrichedCase) : EnrichedCase :=
  {| base := {| brand := brand (base c); campaignName := campaignName (base c);
                geography := ""; timeframe := None;
                summary := summary (base c); productFocus := None;
                offerType := None; influencers := [];
                sources := sources (base c) |};
     metrics := metrics c |}.

Definition shownInBlocks (c : EnrichedCase) : EnrichedCase :=
  {| base := {| brand := brand (base c); campaignName := campaignName (base c);
                geography := ""; timeframe := None;
                summary := summary (base c); productFocus := None;
                offerType := None; influencers := [];
                sources := None |};
     metrics := map (fun m => {| metric := metric m; value := value m;
                                 currency := None; metricTimeframe := None;
                                 note := None |}) (metrics c) |}.

(** * Properties *)

(** ** Strings *)

Lemma append_nil_l (a : string) : "" +:+ a = a.
Proof. reflexivity. Qed.

Lemma append_cons (x : ascii) (a b : string) : String x a +:+ b = String x (a +:+ b).
Proof. reflexivity. Qed.

Lemma append_assoc (a b c : string) : (a +:+ b) +:+ c = a +:+ (b +:+ c).
Proof.
  induction a as [|x a IH]; [reflexivity |].
  now rewrite !append_cons, IH.
Qed.

Lemma append_nil_r (a : string) : a +:+ "" = a.
Proof.
  induction a as [|x a IH]; [reflexivity |].
  now rewrite append_cons, IH.
Qed.

Lemma startsWith_StartsWith (p s : string) : startsWith p s = true <-> StartsWith p s.
Proof.
  unfold startsWith, StartsWith. revert s.
  induction p as [|a p IH]; intros s.
  - destruct s; simpl; split; eauto.
  - destruct s as [|b s]; simpl.
    + split; [discriminate | intros [post H]; discriminate H].
    + destruct (ascii_dec a b) as [->|Hne].
      * rewrite IH. split; intros [post H]; exists post.
        -- now rewrite append_cons, <- H.
        -- rewrite append_cons in H. now injection H.
      * split; [discriminate |].
        intros [post H]. rewrite append_cons in H. injection H. congruence.
Qed.

Lemma includes_Contains (p s : string) : includes p s = true <-> Contains p s.
Proof.
  unfold Contains. induction s as [|a s IH].
  - cbn [includes]. rewrite orb_false_r. fold (startsWith p "").
    rewrite startsWith_StartsWith. split.
    + intros [post H]. exists "", post. exact H.
    + intros (pre & post & H). destruct pre; [| discriminate H].
      exists post. exact H.
  - cbn [includes]. rewrite orb_true_iff, IH. fold (startsWith p (String a s)).
    rewrite startsWith_StartsWith. split.
    + intros [[post H] | (pre & post & H)].
      * exists "", post. exact H.
      * exists (String a pre), post. now rewrite append_cons, H.
    + intros (pre & post & H). destruct pre as [|b pre].
      * left. exists post. exact H.
      * right. exists pre, post. rewrite append_cons in H. now injection H.
Qed.

Lemma Contains_refl (s : string) : Contains s s.
Proof. exists "", "". now rewrite append_nil_l, append_nil_r. Qed.

Lemma Contains_append_l (x a b : string) : Contains x a -> Contains x (a +:+ b).
Proof.
  intros (pre & post & ->). exists pre, (post +:+ b).
  now rewrite !append_assoc.
Qed.

Lemma Contains_append_r (x a b : string) : Contains x b -> Contains x (a +:+ b).
Proof.
  intros (pre & post & ->). exists (a +:+ pre), post.
  now rewrite !append_assoc.
Qed.

(** Every element of a joined list is a piece of the result. *)
Lemma Contains_join (sep x : string) (l : list string) :
  In x l -> Contains x (join sep l).
Proof.
  unfold join. induction l as [|y l IH]; [contradiction |].
  intros [-> | Hin].
  - destruct l; [apply Contains_refl | apply Contains_append_l, Contains_refl].
  - destruct l as [|z l]; [contradiction |].
    apply Contains_append_r, Contains_append_r, IH, Hin.
Qed.
(** ** Lists *)

Lemma take_imap {A B} (f : nat -> A -> B) (n : nat) (l : list A) :
  take n (imap f l) = imap f (take n l).
Proof.
  revert n f. induction l as [|x l IH]; intros [|n] f; simpl; try reflexivity.
  now rewrite IH.
Qed.

Lemma imap_ext_in {A B} (f g : nat -> A -> B) (l : list A) :
  (forall i x, l !! i = Some x -> f i x = g i x) -> imap f l = imap g l.
Proof.
  revert f g. induction l as [|x l IH]; intros f g H; simpl; [reflexivity |].
  rewrite (H 0 x eq_refl). f_equal. apply IH. intros i y Hy. apply (H (S i) y Hy).
Qed.

(** ** Results *)

Lemma bind_Ok {A B} (r : result A) (f : A -> result B) (b : B) :
  (r ≫= f) = Ok b -> exists a, r = Ok a /\ f a = Ok b.
Proof. destruct r as [a|e]; simpl; [eauto | discriminate]. Qed.

Lemma fmap_Ok {A B} (r : result A) (f : A -> B) (b : B) :
  (f <$> r) = Ok b -> exists a, r = Ok a /\ b = f a.
Proof. destruct r as [a|e]; simpl; [intros [= <-]; eauto | discriminate]. Qed.

(** Peel the binds of a successful parse, one field at a time. *)
Ltac parse_ok H :=
  repeat (let a := fresh "x" in
          let Ha := fresh "P" in
          apply bind_Ok in H as (a & Ha & H)).

Lemma parseAll_Forall2 {T} (s : Schema T) (l : list json) (xs : list T) :
  parseAll s l = Ok xs -> Forall2 (fun j x => s j = Ok x) l xs.
Proof.
  revert xs. induction l as [|j l IH]; intros xs H; simpl in H.
  - injection H as <-. constructor.
  - parse_ok H. injection H as <-. constructor; auto.
Qed.

Lemma parseAll_length {T} (s : Schema T) (l : list json) (xs : list T) :
  parseAll s l = Ok xs -> length xs = length l.
Proof. intros H. apply parseAll_Forall2, Forall2_length in H. congruence. Qed.

Lemma z_array_Forall {T} (s : Schema T) (P : T -> Prop) (j : json) (xs : list T) :
  (forall j x, s j = Ok x -> P x) -> z_array s j = Ok xs -> Forall P xs.
Proof.
  intros HP H. destruct j; try discriminate H. simpl in H.
  apply parseAll_Forall2 in H. induction H; constructor; eauto.
Qed.

Lemma z_min_Ok {T} (n : nat) (s : Schema (list T)) (j : json) (xs : list T) :
  z_min n s j = Ok xs -> s j = Ok xs /\ n <= length xs.
Proof.
  unfold z_min. intros H. apply bind_Ok in H as (l & Hl & H).
  destruct (Nat.leb n (length l)) eqn:E; [| discriminate H].
  injection H as <-. split; [exact Hl | now apply Nat.leb_le].
Qed.

Lemma z_max_Ok {T} (n : nat) (s : Schema (list T)) (j : json) (xs : list T) :
  z_max n s j = Ok xs -> s j = Ok xs /\ length xs <= n.
Proof.
  unfold z_max. intros H. apply bind_Ok in H as (l & Hl & H).
  destruct (Nat.leb (length l) n) eqn:E; [| discriminate H].
  injection H as <-. split; [exact Hl | now apply Nat.leb_le].
Qed.

(** ** Effects *)

Lemma M_bind_inv {A B} (m : M A) (f : A -> M B) (t : list Event) (r : result B) :
  (m ≫= f) = (t, r) ->
  (exists t1 a t2, m = (t1, Ok a) /\ f a = (t2, r) /\ t = t1 ++ t2)
  \/ (exists e, m = (t, Err e) /\ r = Err e).
Proof.
  destruct m as [t1 [a|e]]; unfold mbind, M_bind.
  - destruct (f a) as [t2 r2] eqn:E. intros [= <- <-]. left. eauto 6.
  - intros [= <- <-]. right. eauto.
Qed.

(** ** Stage 3 *)

Lemma slackWebhook_None (env : Env) : SLACK_WEBHOOK_URL env = None -> slackWebhook env = None.
Proof. unfold slackWebhook. now intros ->. Qed.

Lemma blocks_shape (language : Language) (cases : list EnrichedCase) :
  blocks language cases
  = HeaderBlock (headerTitle language)
    :: imap (fun idx c => SectionBlock (sectionText language idx c)) (take 49 cases).
Proof. unfold blocks, slice0. simpl. now rewrite take_imap. Qed.

Lemma blocks_length (language : Language) (cases : list EnrichedCase) :
  length (blocks language cases) = Nat.min 50 (1 + length cases).
Proof. unfold blocks, slice0. rewrite length_take. simpl. now rewrite length_imap. Qed.

Lemma summary_has_every_case (inc : bool) (language : Language)
    (cases : list EnrichedCase) (i : nat) (c : EnrichedCase) :
  cases !! i = Some c ->
  Contains (caseText inc language i c) (summaryText inc language cases).
Proof.
  intros H. apply Contains_join. apply list_elem_of_In.
  apply list_elem_of_lookup. exists i. rewrite list_lookup_imap, H. reflexivity.
Qed.

Lemma summarize_with_webhook (v : Variant) (w : World) (env : Env)
    (hook : IncomingWebhook) (d : StageData EnrichedCase) :
  slackWebhook env = Some hook ->
  let summary := summaryText (includeSources d) (language d) (cases d) in
  let bs := blocks (language d) (cases d) in
  execute (summarizeAndNotifyStep v w env) d
  = ([WebhookSend hook summary bs],
     match send w hook summary bs with
     | Ok _ => Ok {| resultSummary := summary; sentToSlack := true;
                     resultCases := cases d |}
     | Err e => Err e
     end).
Proof.
  intros H. simpl. rewrite H. unfold perform, mbind, M_bind, mret, M_ret.
  destruct (send w hook _ _); reflexivity.
Qed.

Lemma summarize_without_webhook (v : Variant) (w : World) (env : Env)
    (d : StageData EnrichedCase) :
  slackWebhook env = None ->
  execute (summarizeAndNotifyStep v w env) d
  = ([ConsoleWarn skipWarning],
     Ok {| resultSummary := summaryText (includeSources d) (language d) (cases d);
           sentToSlack := false; resultCases := cases d |}).
Proof. intros H. simpl. rewrite H. reflexivity. Qed.

(** The texts Stage 3 writes, spelled out. *)
Lemma metricLine_spelled (m : Metric) :
  metricLine m
  = "- " +:+ metric m +:+ ": " +:+ value m
    +:+ match currency m with Some (Some (String a s)) => " " +:+ String a s | _ => "" end
    +:+ match metricTimeframe m with
        | Some (String a s) => " (" +:+ String a s +:+ ")"
        | _ => ""
        end
    +:+ match note m with Some (String a s) => "｜" +:+ String a s | _ => "" end.
Proof. destruct m as [mt vl [[[|? ?]|]|] [[|? ?]|] [[|? ?]|]]; reflexivity. Qed.

Lemma caseText_spelled (inc : bool) (lang : Language) (idx : nat) (c : EnrichedCase) :
  caseText inc lang idx c
  = numberToString (Z.of_nat idx + 1) +:+ ". " +:+ brand (base c) +:+ " / "
    +:+ campaignName (base c) +:+ nl +:+ summary (base c) +:+ nl
    +:+ match lang with ja => "主要KPI" | en => "Key KPIs" end +:+ ":" +:+ nl
    +:+ join nl
          (map (fun m =>
                  "- " +:+ metric m +:+ ": " +:+ value m
                  +:+ match currency m with
                      | Some (Some (String a s)) => " " +:+ String a s
                      | _ => ""
                      end
                  +:+ match metricTimeframe m with
                      | Some (String a s) => " (" +:+ String a s +:+ ")"
                      | _ => ""
                      end
                  +:+ match note m with
                      | Some (String a s) => "｜" +:+ String a s
                      | _ => ""
                      end)
             (metrics c))
    +:+ match sources (base c) with
        | Some (u :: us) =>
            if inc
            then nl +:+ match lang with ja => "参考" | en => "Sources" end
                 +:+ ": " +:+ join ", " (u :: us)
            else ""
        | _ => ""
        end.
Proof.
  unfold caseText. rewrite (List.map_ext _ _ metricLine_spelled).
  unfold sourcesLine, bulletLabel.
  destruct (sources (base c)) as [[|u us]|]; destruct inc; reflexivity.
Qed.

Lemma summaryText_spelled (inc : bool) (lang : Language) (cases : list EnrichedCase)
    (lines : nat -> EnrichedCase -> string) :
  (forall i c, caseText inc lang i c = lines i c) ->
  summaryText inc lang cases = join (nl +:+ nl) (imap lines cases)
  /\ (forall i c, cases !! i = Some c -> Contains (lines i c) (summaryText inc lang cases)).
Proof.
  intros H. split.
  - unfold summaryText. f_equal. apply imap_ext_in. intros i c _. apply H.
  - intros i c Hc. rewrite <- H. now apply summary_has_every_case.
Qed.

(** C2.  With a webhook configured, the block list sent to the chat has at
    most 50 entries: the header followed by one section for each of the
    first 49 cases, in order, each with the number, brand, campaign name,
    summary and the name and value of every metric of its case; the cases
    from the 50th on have no block.  The text sent along, which is the
    summary returned, still holds the text of every case, with its number,
    brand, campaign name, summary, metric lines and sources line, and the
    case list returned is the whole input list. *)
Theorem chat_blocks_bounded (v : Variant) (w : World) (env : Env)
    (hook : IncomingWebhook) (d : StageData EnrichedCase) :
  slackWebhook env = Some hook ->
  let label := match language d with ja => "主要KPI" | en => "Key KPIs" end in
  let caseLines idx c :=
    numberToString (Z.of_nat idx + 1) +:+ ". " +:+ brand (base c) +:+ " / "
    +:+ campaignName (base c) +:+ nl +:+ summary (base c) +:+ nl
    +:+ label +:+ ":" +:+ nl
    +:+ join nl
          (map (fun m =>
                  "- " +:+ metric m +:+ ": " +:+ value m
                  +:+ match currency m with
                      | Some (Some (String a s)) => " " +:+ String a s
                      | _ => ""
                      end
                  +:+ match metricTimeframe m with
                      | Some (String a s) => " (" +:+ String a s +:+ ")"
                      | _ => ""
                      end
                  +:+ match note m with
                      | Some (String a s) => "｜" +:+ String a s
                      | _ => ""
                      end)
             (metrics c))
    +:+ match sources (base c) with
        | Some (u :: us) =>
            if includeSources d
            then nl +:+ match language d with ja => "参考" | en => "Sources" end
                 +:+ ": " +:+ join ", " (u :: us)
            else ""
        | _ => ""
        end in
  let sectionLines idx c :=
    "*" +:+ numberToString (Z.of_nat idx + 1) +:+ ". " +:+ brand (base c) +:+ " — "
    +:+ campaignName (base c) +:+ "*" +:+ nl +:+ summary (base c) +:+ nl
    +:+ label +:+ ": "
    +:+ join " / " (map (fun m => metric m +:+ ": " +:+ value m) (metrics c)) in
  let summary := summaryText (includeSources d) (language d) (cases d) in
  let run := execute (summarizeAndNotifyStep v w env) d in
  exists bs,
    trace run = [WebhookSend hook summary bs]
    /\ length bs = Nat.min 50 (1 + length (cases d))
    /\ length bs <= 50
    /\ bs = HeaderBlock (headerTitle (language d))
            :: imap (fun idx c => SectionBlock (sectionText (language d) idx c))
                 (take 49 (cases d))
    /\ (forall i c, cases d !! i = Some c ->
          Contains (caseText (includeSources d) (language d) i c) summary)
    /\ (send w hook summary bs = Ok tt ->
          outcome run = Ok {| resultSummary := summary; sentToSlack := true;
                              resultCases := cases d |})
    /\ (forall res, outcome run = Ok res ->
          resultSummary res = summary /\ resultCases res = cases d)
    /\ bs !! 0 = Some (HeaderBlock match language d with
                                   | ja => "コマース x インフルエンサー他社事例"
                                   | en => "Commerce x Influencer Scan"
                                   end)
    /\ (forall i c, cases d !! i = Some c -> i < 49 ->
          bs !! (S i) = Some (SectionBlock (sectionLines i c)))
    /\ (forall i, 49 <= i -> bs !! (S i) = None)
    /\ summary = join (nl +:+ nl) (imap caseLines (cases d))
    /\ (forall i c, cases d !! i = Some c -> Contains (caseLines i c) summary).
Proof.
  intros H label caseLines sectionLines summary run.
  exists (blocks (language d) (cases d)).
  subst run. rewrite (summarize_with_webhook v w env hook d H).
  unfold trace, outcome; cbn [fst snd]. fold summary.
  destruct (summaryText_spelled (includeSources d) (language d) (cases d) caseLines)
    as [HS HC]; [intros i c; apply caseText_spelled |].
  split; [reflexivity |]. split; [apply blocks_length |].
  split; [rewrite blocks_length; lia |]. split; [apply blocks_shape |].
  split; [intros i c; apply summary_has_every_case |].
  split; [intros ->; reflexivity |].
  split.
  { intros res. destruct (send w hook summary _); [| discriminate].
    intros [= <-]. split; reflexivity. }
  rewrite blocks_shape.
  split; [now destruct (language d) |].
  split.
  { intros i c Hc Hi. cbn [lookup list_lookup].
    change (imap (fun idx c0 => SectionBlock (sectionText (language d) idx c0))
              (take 49 (cases d)) !! i = Some (SectionBlock (sectionLines i c))).
    rewrite list_lookup_imap, (lookup_take_lt _ _ _ Hi), Hc. reflexivity. }
  split.
  { intros i Hi.
    change (imap (fun idx c0 => SectionBlock (sectionText (language d) idx c0))
              (take 49 (cases d)) !! i = None).
    rewrite list_lookup_imap, (lookup_take_ge _ _ _ Hi). reflexivity. }
  split; [exact HS | exact HC].
Qed.

(** C9.  Without a webhook, Stage 3 warns on the console, calls nothing on
    the network, and returns [sentToSlack = false] with the whole case list
    and the whole summary: the text of every case, with its number, brand,
    campaign name, summary, metric lines and sources line, the texts
    separated by an empty line. *)
Theorem no_webhook_no_send (v : Variant) (w : World) (env : Env)
    (d : StageData EnrichedCase) :
  SLACK_WEBHOOK_URL env = None ->
  let caseLines idx c :=
    numberToString (Z.of_nat idx + 1) +:+ ". " +:+ brand (base c) +:+ " / "
    +:+ campaignName (base c) +:+ nl +:+ summary (base c) +:+ nl
    +:+ match language d with ja => "主要KPI" | en => "Key KPIs" end +:+ ":" +:+ nl
    +:+ join nl
          (map (fun m =>
                  "- " +:+ metric m +:+ ": " +:+ value m
                  +:+ match currency m with
                      | Some (Some (String a s)) => " " +:+ String a s
                      | _ => ""
                      end
                  +:+ match metricTimeframe m with
                      | Some (String a s) => " (" +:+ String a s +:+ ")"
                      | _ => ""
                      end
                  +:+ match note m with
                      | Some (String a s) => "｜" +:+ String a s
                      | _ => ""
                      end)
             (metrics c))
    +:+ match sources (base c) with
        | Some (u :: us) =>
            if includeSources d
            then nl +:+ match language d with ja => "参考" | en => "Sources" end
                 +:+ ": " +:+ join ", " (u :: us)
            else ""
        | _ => ""
        end in
  let summary := summaryText (includeSources d) (language d) (cases d) in
  let run := execute (summarizeAndNotifyStep v w env) d in
  trace run = [ConsoleWarn skipWarning]
  /\ existsb isNetworkCall (trace run) = false
  /\ outcome run = Ok {| resultSummary := summary; sentToSlack := false;
                         resultCases := cases d |}
  /\ (forall i c, cases d !! i = Some c ->
        Contains (caseText (includeSources d) (language d) i c) summary)
  /\ summary = join (nl +:+ nl) (imap caseLines (cases d))
  /\ (forall i c, cases d !! i = Some c -> Contains (caseLines i c) summary).
Proof.
  intros H caseLines summary run. subst run.
  rewrite (summarize_without_webhook v w env d (slackWebhook_None env H)).
  destruct (summaryText_spelled (includeSources d) (language d) (cases d) caseLines)
    as [HS HC]; [intros i c; apply caseText_spelled |].
  split; [reflexivity |]. split; [reflexivity |]. split; [reflexivity |].
  split; [intros i c; apply summary_has_every_case |].
  split; [exact HS | exact HC].
Qed.

(** ** The adapter *)

Section AdapterFacts.
Context {T : Type}.
Variable w : World.
Variable v : Variant.
Variable env : Env.
Variable generateObject : Schema T -> GenerateParams -> result T.
Variable schema : Schema T.
Variable params : GenerateParams.

Let request : GenerateParams :=
  {| model := model params;
     system := jsonOnlySystem (system params);
     prompt := jsonOnlyPrompt (prompt params) |}.

Lemma adapter_structured :
  textMode v env = false ->
  generateStructuredObject w v env generateObject schema params
  = ([GenerateObject params], generateObject schema params).
Proof. unfold generateStructuredObject. now intros ->. Qed.

Lemma adapter_text :
  textMode v env = true ->
  generateStructuredObject w v env generateObject schema params
  = match generateText w request with
    | Err e => ([GenerateText request], Err e)
    | Ok text =>
        match JSON_parse w text ≫= schema with
        | Ok object => ([GenerateText request], Ok object)
        | Err error =>
            (GenerateText request :: trace (logParseFailure v text),
             Err (Error (parseFailureMessage v error)))
        end
    end.
Proof.
  unfold generateStructuredObject. intros ->. fold request.
  destruct (generateText w request) as [text|e]; [| reflexivity].
  unfold perform, mbind at 1, M_bind.
  destruct (JSON_parse w text ≫= schema); [reflexivity |].
  destruct v; reflexivity.
Qed.

(** The adapter calls the model exactly once and nothing else on the
    network. *)
Lemma adapter_trace :
  exists call rest,
    trace (generateStructuredObject w v env generateObject schema params) = call :: rest
    /\ isModelCall call = true
    /\ Forall (fun ev => exists msg, ev = ConsoleError msg) rest.
Proof.
  destruct (textMode v env) eqn:E.
  - rewrite (adapter_text E).
    destruct (generateText w request) as [text|e].
    + destruct (JSON_parse w text ≫= schema).
      * exists (GenerateText request), []. repeat split. constructor.
      * exists (GenerateText request), (trace (logParseFailure v text)).
        repeat split. destruct v; repeat constructor; eauto.
    + exists (GenerateText request), []. repeat split. constructor.
  - rewrite (adapter_structured E).
    exists (GenerateObject params), []. repeat split. constructor.
Qed.
End AdapterFacts.

(** C4 (as amended).  The mode is a function of the configured model name
    alone.  The market-research adapter uses text mode exactly when the name
    contains "search" or starts with "gpt-5"; the commerce-influencer
    adapter uses text mode exactly when the name contains "search".  Text
    mode calls [generateText], structured mode calls [generateObject]. *)
Theorem mode_selection (env : Env) :
  (textMode MarketResearch env = true
     <-> Contains "search" (OPENAI_MODEL env) \/ StartsWith "gpt-5" (OPENAI_MODEL env))
  /\ (textMode CommerceInfluencer env = true <-> Contains "search" (OPENAI_MODEL env))
  /\ (forall env', OPENAI_MODEL env' = OPENAI_MODEL env ->
        forall v, textMode v env' = textMode v env)
  /\ (forall T v w g (schema : Schema T) params,
        exists call rest,
          trace (generateStructuredObject w v env g schema params) = call :: rest
          /\ existsb isModelCall rest = false
          /\ call = if textMode v env
                    then GenerateText {| model := model params;
                                         system := jsonOnlySystem (system params);
                                         prompt := jsonOnlyPrompt (prompt params) |}
                    else GenerateObject params).
Proof.
  split; [| split; [| split]].
  - unfold textMode, isNonStructuredModel, MODEL_NAME.
    now rewrite orb_true_iff, includes_Contains, startsWith_StartsWith.
  - unfold textMode, isSearchModel, MODEL_NAME. apply includes_Contains.
  - intros env' H v. destruct v; unfold textMode, isSearchModel, isNonStructuredModel,
      MODEL_NAME; now rewrite H.
  - intros T v w g schema params. destruct (textMode v env) eqn:E.
    + rewrite (adapter_text w v env g schema params E).
      destruct (generateText w _) as [text|e]; [| eauto].
      destruct (JSON_parse w text ≫= schema); [eauto |].
      eexists _, _. split; [reflexivity |]. split; [| reflexivity].
      destruct v; reflexivity.
    + rewrite (adapter_structured w v env g schema params E). eauto.
Qed.

(** C4, as the claim states it, fails for the commerce-influencer adapter:
    "gpt-5-mini" starts with "gpt-5", yet the adapter runs in structured
    mode. *)
Lemma mode_selection_gpt5_commerce :
  ~ (forall v env,
       textMode v env = true
       <-> Contains "search" (OPENAI_MODEL env) \/ StartsWith "gpt-5" (OPENAI_MODEL env)).
Proof.
  intros H.
  destruct (H CommerceInfluencer (sampleEnv "gpt-5-mini" None)) as [_ H'].
  discriminate H'. right. exists "-mini". reflexivity.
Qed.

(** C3.  In structured mode the adapter hands the schema and the request
    to [generateObject], which checks the value the model call returned
    against that schema, and it answers as that call does, with no other
    call.  So whenever the value does not satisfy the schema the adapter
    fails with a [ValidationError], and a value the adapter returns is the
    one the schema read from the value of the model call: it never returns
    a value that violates the schema. *)
Theorem structured_mode_conforms {T} (w : World) (v : Variant) (env : Env)
    (g : Schema T -> GenerateParams -> result T) (schema : Schema T)
    (params : GenerateParams) (reply : json) :
  textMode v env = false ->
  ChecksReply g schema params reply ->
  let run := generateStructuredObject w v env g schema params in
  trace run = [GenerateObject params]
  /\ outcome run = g schema params
  /\ (forall error, schema reply = Err error ->
        exists e, outcome run = Err e /\ isValidationError e = true)
  /\ (forall x, schema reply = Ok x -> outcome run = Ok x)
  /\ (forall x, outcome run = Ok x -> schema reply = Ok x).
Proof.
  intros E C run. subst run. rewrite (adapter_structured w v env g schema params E).
  unfold trace, outcome; cbn [fst snd]. unfold ChecksReply in C.
  split; [reflexivity |]. split; [reflexivity |].
  destruct (schema reply) as [y|error0].
  - split; [discriminate |]. split; [now intros x [= <-] | congruence].
  - destruct C as (e & He & Hv). split; [eauto |]. split; [discriminate | congruence].
Qed.

Lemma structured_mode_conforms_witness :
  let w := sampleWorld [sampleCase] [] in
  let reply := json_of_caseList {| caseList := [sampleCase] |} in
  caseListSchema reply = Ok {| caseList := [sampleCase] |}
  /\ outcome (generateStructuredObject w MarketResearch (sampleEnv "gpt-4o-mini" None)
                (generateObject_CaseList w) caseListSchema sampleParams)
     = Ok {| caseList := [sampleCase] |}.
Proof.
  intros w reply. split; [reflexivity |].
  assert (C : ChecksReply (generateObject_CaseList w) caseListSchema sampleParams reply)
    by reflexivity.
  destruct (structured_mode_conforms w MarketResearch (sampleEnv "gpt-4o-mini" None)
              (generateObject_CaseList w) caseListSchema sampleParams reply eq_refl C)
    as (_ & _ & _ & H & _).
  exact (H _ eq_refl).
Defined.

(** A value of the model call that breaks the schema: a case without
    influencer.  The call fails, and so does the adapter. *)
Example structured_mode_rejects_invalid_reply :
  let w := sampleWorld [caseWithoutInfluencer] [] in
  let env := sampleEnv "gpt-4o-mini" None in
  let run := generateStructuredObject w MarketResearch env (generateObject_CaseList w)
               caseListSchema sampleParams in
  textMode MarketResearch env = false
  /\ isOk (caseListSchema (json_of_caseList {| caseList := [caseWithoutInfluencer] |}))
     = false
  /\ trace run = [GenerateObject sampleParams]
  /\ exists e, outcome run = Err e /\ isValidationError e = true.
Proof.
  repeat split. eexists. split; reflexivity.
Qed.




(** A reply short enough for [JSON.parse] to quote it whole is in the
    message of the error, as part of the message of [JSON.parse]. *)
Example short_reply_is_quoted :
  outcome (generateStructuredObject (chattyWorld "oops") CommerceInfluencer
             (sampleEnv "gpt-5-search-api" None)
             (generateObject_CaseList (chattyWorld "oops")) caseListSchema sampleParams)
  = Err (Error ("Failed to parse search model response as valid JSON: "
                +:+ q "Unexpected token 'o', `oops` is not valid JSON")).
Proof. reflexivity. Qed.

(** ** What the schemas guarantee *)

Lemma baseCaseSchema_Ok (j : json) (c : BaseCase) :
  baseCaseSchema j = Ok c -> 1 <= length (influencers c).
Proof.
  unfold baseCaseSchema. intros H. parse_ok H. injection H as <-. simpl.
  match goal with
  | P : field _ "influencers" _ = Ok _ |- _ => apply z_min_Ok in P as [_ P]; exact P
  end.
Qed.

Lemma enrichedCaseSchema_Ok (v : Variant) (j : json) (c : EnrichedCase) :
  enrichedCaseSchema v j = Ok c ->
  1 <= length (influencers (base c)) /\ 1 <= length (metrics c).
Proof.
  unfold enrichedCaseSchema. intros H. parse_ok H. injection H as <-. simpl. split.
  - eapply baseCaseSchema_Ok; eassumption.
  - match goal with
    | P : field _ "metrics" _ = Ok _ |- _ => apply z_min_Ok in P as [_ P]; exact P
    end.
Qed.

Lemma caseListSchema_Ok (j : json) (l : CaseList) :
  caseListSchema j = Ok l ->
  length (caseList l) <= 6
  /\ Forall (fun c => 1 <= length (influencers c)) (caseList l).
Proof.
  unfold caseListSchema. intros H. parse_ok H. injection H as <-. simpl.
  match goal with
  | P : field _ "cases" _ = Ok _ |- _ =>
      apply z_max_Ok in P as [P Hlen];
      split; [exact Hlen | exact (z_array_Forall _ _ _ _ baseCaseSchema_Ok P)]
  end.
Qed.

Lemma stageDataSchema_Ok {C} (s : Schema C) (P : C -> Prop) (j : json) (d : StageData C) :
  (forall j x, s j = Ok x -> P x) ->
  stageDataSchema s j = Ok d ->
  1 <= length (cases d) /\ Forall P (cases d).
Proof.
  intros HP H. unfold stageDataSchema in H. parse_ok H. injection H as <-. simpl.
  match goal with
  | Q : field _ "cases" _ = Ok _ |- _ =>
      apply z_min_Ok in Q as [Q Hlen];
      split; [exact Hlen | exact (z_array_Forall _ _ _ _ HP Q)]
  end.
Qed.

Lemma parseAll_strings (l l' : list string) :
  parseAll z_string (map JStr l) = Ok l' -> l' = l.
Proof.
  revert l'. induction l as [|x l IH]; intros l' H; simpl in H.
  - now injection H.
  - parse_ok H. injection H as <-. f_equal. now apply IH.
Qed.

(** Writing a stage's result as an object and reading it back with the next
    stage's input schema keeps the carried fields, and reads each case with
    the case schema. *)
Lemma stageData_reread {C} (s : Schema C) (f : C -> json) (d d' : StageData C) :
  stageDataSchema s (json_of_stageData f d) = Ok d' ->
  Forall2 (fun x x' => s (f x) = Ok x') (cases d) (cases d')
  /\ metricFocus d' = metricFocus d
  /\ language d' = language d
  /\ includeSources d' = includeSources d.
Proof.
  unfold stageDataSchema, json_of_stageData, JObj_of, json_of_strings, field.
  intros H. destruct d as [cs mf lang inc]; simpl in *.
  assert (Hl : exists jl, json_of_language lang = JStr jl /\ languageSchema (JStr jl) = Ok lang)
    by (destruct lang; eexists; split; reflexivity).
  destruct Hl as (jl & Hjl & Hlang). rewrite Hjl in H. simpl in H.
  parse_ok H. injection H as <-. simpl.
  repeat match goal with
  | Q : z_min _ _ _ = Ok _ |- _ => apply z_min_Ok in Q as [Q _]; simpl in Q
  end.
  split; [| split; [| split]].
  - match goal with
    | Q : parseAll s _ = Ok _ |- _ =>
        apply parseAll_Forall2 in Q; now apply Forall2_fmap_l in Q
    end.
  - match goal with Q : parseAll z_string _ = Ok _ |- _ => now apply parseAll_strings in Q end.
  - unfold languageSchema in Hlang. congruence.
  - reflexivity.
Qed.

(** ** Running steps *)

Lemma bind_ret {A B} (m : M A) (f : A -> B) :
  (m ≫= λ x, mret (f x)) = (trace m, f <$> outcome m).
Proof.
  destruct m as [t [a|e]]; unfold mbind, M_bind, mret, M_ret, trace, outcome; simpl.
  - now rewrite app_nil_r.
  - reflexivity.
Qed.

Lemma runStep_inv {I O} (s : Step I O) (data : json) (t : list Event) (r : result O) :
  runStep s data = (t, r) ->
  (exists e, inputSchema s data = Err e /\ t = [] /\ r = Err e)
  \/ (exists inputData, inputSchema s data = Ok inputData /\ execute s inputData = (t, r)).
Proof.
  unfold runStep, liftR. destruct (inputSchema s data) as [i|e].
  - unfold mbind, M_bind. destruct (execute s i) as [t' r'] eqn:E. simpl.
    intros [= <- <-]. right. exists i. split; [reflexivity | exact E].
  - unfold mbind, M_bind. intros [= <- <-]. left. eauto.
Qed.

Lemma runStep_Ok {I O} (s : Step I O) (data : json) (inputData : I) :
  inputSchema s data = Ok inputData -> runStep s data = execute s inputData.
Proof.
  unfold runStep, liftR. intros ->. unfold mbind, M_bind.
  now destruct (execute s inputData).
Qed.

Lemma runStep_Err {I O} (s : Step I O) (data : json) (e : JsError) :
  inputSchema s data = Err e -> runStep s data = ([], Err e).
Proof. unfold runStep, liftR. now intros ->. Qed.

Lemma collect_execute (v : Variant) (w : World) (env : Env) (inputData : WorkflowInput) :
  let call := generateStructuredObject w v env (generateObject_CaseList w) caseListSchema
                (collect_params v env inputData) in
  execute (collectStep v w env) inputData
  = (trace call,
     (fun structured => {| cases := caseList structured;
                           metricFocus := inputMetricFocus inputData;
                           language := inputLanguage inputData;
                           includeSources := inputIncludeSources inputData |})
     <$> outcome call).
Proof. destruct v; simpl; apply bind_ret. Qed.

Lemma enrich_execute (v : Variant) (w : World) (env : Env) (inputData : StageData BaseCase) :
  let call := generateStructuredObject w v env (generateObject_EnrichedCaseList w)
                (enrichedCaseListSchema v) (enrichCases_params v w env inputData) in
  execute (enrichCasesWithMetricsStep v w env) inputData
  = (trace call,
     (fun structured => {| cases := enrichedCaseList structured;
                           metricFocus := metricFocus inputData;
                           language := language inputData;
                           includeSources := includeSources inputData |})
     <$> outcome call).
Proof. simpl. apply bind_ret. Qed.

(** The answer of the model that the adapter returned, when it returned. *)
Lemma adapter_Ok {T} (w : World) (v : Variant) (env : Env)
    (g : Schema T -> GenerateParams -> result T) (schema : Schema T)
    (params : GenerateParams) (x : T) :
  outcome (generateStructuredObject w v env g schema params) = Ok x ->
  if textMode v env
  then exists text parsed,
         generateText w {| model := model params;
                           system := jsonOnlySystem (system params);
                           prompt := jsonOnlyPrompt (prompt params) |} = Ok text
         /\ JSON_parse w text = Ok parsed
         /\ schema parsed = Ok x
  else g schema params = Ok x.
Proof.
  destruct (textMode v env) eqn:E.
  - rewrite (adapter_text w v env g schema params E).
    destruct (generateText w _) as [text|e]; [| discriminate].
    destruct (JSON_parse w text) as [parsed|e] eqn:EP; [| discriminate].
    cbn [mbind result_bind].
    destruct (schema parsed) as [y|e] eqn:ES; [| discriminate].
    intros [= <-]. eauto.
  - now rewrite (adapter_structured w v env g schema params E).
Qed.

(** ** Whole runs *)

Lemma workflow_steps (v : Variant) (w : World) (env : Env) (inputData : json) :
  workflow v w env inputData
  = match runStep (collectStep v w env) inputData with
    | (t1, Err e) => (t1, Err e)
    | (t1, Ok out1) =>
        match runStep (enrichCasesWithMetricsStep v w env)
                (json_of_stageData json_of_baseCase out1) with
        | (t2, Err e) => (t1 ++ t2, Err e)
        | (t2, Ok out2) =>
            let '(t3, r) := runStep (summarizeAndNotifyStep v w env)
                              (json_of_stageData json_of_enrichedCase out2) in
            (t1 ++ t2 ++ t3, r)
        end
    end.
Proof.
  unfold workflow, mbind at 1, M_bind.
  destruct (runStep (collectStep v w env) inputData) as [t1 [out1|e]]; [| reflexivity].
  unfold mbind, M_bind.
  destruct (runStep (enrichCasesWithMetricsStep v w env) _) as [t2 [out2|e]];
    [| reflexivity].
  now destruct (runStep (summarizeAndNotifyStep v w env) _).
Qed.

Lemma adapter_no_send {T} (w : World) (v : Variant) (env : Env)
    (g : Schema T -> GenerateParams -> result T) (schema : Schema T)
    (params : GenerateParams) :
  existsb isWebhookSend (trace (generateStructuredObject w v env g schema params)) = false.
Proof.
  destruct (adapter_trace w v env g schema params) as (call & rest & -> & Hcall & Hrest).
  simpl. destruct call; try discriminate Hcall; simpl;
    induction Hrest as [|ev rest [msg ->] _ IH]; simpl; auto.
Qed.

Lemma collect_no_send (v : Variant) (w : World) (env : Env) (data : json)
    (t : list Event) (r : result (StageData BaseCase)) :
  runStep (collectStep v w env) data = (t, r) -> existsb isWebhookSend t = false.
Proof.
  intros H. apply runStep_inv in H as [(e & _ & -> & _) | (i & _ & H)]; [reflexivity |].
  rewrite collect_execute in H. injection H as <- _. apply adapter_no_send.
Qed.

Lemma enrich_no_send (v : Variant) (w : World) (env : Env) (data : json)
    (t : list Event) (r : result (StageData EnrichedCase)) :
  runStep (enrichCasesWithMetricsStep v w env) data = (t, r) ->
  existsb isWebhookSend t = false.
Proof.
  intros H. apply runStep_inv in H as [(e & _ & -> & _) | (i & _ & H)]; [reflexivity |].
  rewrite enrich_execute in H. injection H as <- _. apply adapter_no_send.
Qed.

Lemma In_no_send (t : list Event) (hook : IncomingWebhook) (text : string)
    (bs : list Block) :
  existsb isWebhookSend t = false -> ~ In (WebhookSend hook text bs) t.
Proof.
  intros H Hin. assert (existsb isWebhookSend t = true); [| congruence].
  apply existsb_exists. eexists. split; [exact Hin | reflexivity].
Qed.

(** C10.  With a webhook configured, the first block of the chat payload
    is the header, and its title is one of two constants chosen by the
    language alone; Stage 3 is the same in both workflows; and whatever a
    run of either workflow sends to the webhook starts with the header whose
    title is fixed by the language of the workflow input, whatever the
    focus keyword. *)
Theorem header_title_fixed (v : Variant) (w : World) (env : Env) :
  (forall hook d, slackWebhook env = Some hook ->
     exists sections,
       trace (execute (summarizeAndNotifyStep v w env) d)
       = [WebhookSend hook (summaryText (includeSources d) (language d) (cases d))
            (HeaderBlock (headerTitle (language d)) :: sections)])
  /\ headerTitle ja = "コマース x インフルエンサー他社事例"
  /\ headerTitle en = "Commerce x Influencer Scan"
  /\ (forall d, execute (summarizeAndNotifyStep CommerceInfluencer w env) d
              = execute (summarizeAndNotifyStep MarketResearch w env) d)
  /\ (forall inputData t r hook text bs,
        workflow v w env inputData = (t, r) ->
        In (WebhookSend hook text bs) t ->
        exists i sections,
          inputSchema (collectStep v w env) inputData = Ok i
          /\ bs = HeaderBlock (headerTitle (inputLanguage i)) :: sections).
Proof.
  split; [| split; [reflexivity | split; [reflexivity | split; [reflexivity |]]]].
  - intros hook d H. rewrite (summarize_with_webhook v w env hook d H).
    rewrite blocks_shape. eexists. reflexivity.
  - intros inputData t r hook text bs Hrun Hin.
    rewrite workflow_steps in Hrun.
    destruct (runStep (collectStep v w env) inputData) as [t1 r1] eqn:E1.
    pose proof (collect_no_send _ _ _ _ _ _ E1) as N1.
    destruct r1 as [out1|e].
    2:{ injection Hrun as <- _. now apply In_no_send in Hin. }
    destruct (runStep (enrichCasesWithMetricsStep v w env) _) as [t2 r2] eqn:E2.
    pose proof (enrich_no_send _ _ _ _ _ _ E2) as N2.
    destruct r2 as [out2|e].
    2:{ injection Hrun as <- _. apply in_app_or in Hin as [Hin|Hin];
          now apply In_no_send in Hin. }
    destruct (runStep (summarizeAndNotifyStep v w env) _) as [t3 r3] eqn:E3.
    injection Hrun as <- _.
    apply in_app_or in Hin as [Hin|Hin]; [now apply In_no_send in Hin |].
    apply in_app_or in Hin as [Hin|Hin]; [now apply In_no_send in Hin |].
    apply runStep_inv in E1 as [(e & _ & _ & [=]) | (i & Hi & X1)].
    apply runStep_inv in E2 as [(e & _ & _ & [=]) | (d2 & Hd2 & X2)].
    apply runStep_inv in E3 as [(e & _ & -> & _) | (d3 & Hd3 & X3)]; [destruct Hin |].
    rewrite collect_execute in X1. injection X1 as _ X1.
    apply fmap_Ok in X1 as (s1 & _ & ->).
    rewrite enrich_execute in X2. injection X2 as _ X2.
    apply fmap_Ok in X2 as (s2 & _ & ->).
    apply stageData_reread in Hd2 as (_ & _ & L2 & _).
    apply stageData_reread in Hd3 as (_ & _ & L3 & _).
    simpl in L2, L3.
    exists i. destruct (slackWebhook env) as [hook'|] eqn:EH.
    + rewrite (summarize_with_webhook v w env hook' d3 EH) in X3.
      injection X3 as <- _. destruct Hin as [[= <- <- <-] | []].
      rewrite blocks_shape, L3, L2. eexists. split; [exact Hi | reflexivity].
    + rewrite (summarize_without_webhook v w env d3 EH) in X3.
      injection X3 as <- _. destruct Hin as [[=] | []].
Qed.

Lemma header_title_fixed_witness :
  let w := sampleWorld [sampleCase] [sampleEnriched] in
  let env := sampleEnv "gpt-4o-mini" (Some "https://hooks.slack.example/T0/B0") in
  exists sections,
    trace (execute (summarizeAndNotifyStep MarketResearch w env) (sampleStage3Input 2))
    = [WebhookSend sampleHook
         (summaryText true en (repeat sampleEnriched 2))
         (HeaderBlock "Commerce x Influencer Scan" :: sections)].
Proof.
  intros w env.
  exact (proj1 (header_title_fixed MarketResearch w env) sampleHook (sampleStage3Input 2)
           eq_refl).
Defined.

(** ** Stage 2 *)

(** C1 (as amended).  Stage 2 returns the case list of the model's answer
    as it is (in text mode, as the enriched-case-list schema read it from
    the reply); from its own input it copies only [metricFocus], [language]
    and [includeSources].  The input cases only appear, serialised, in the
    prompt.  So an output case has the base fields of the input case
    exactly when the model repeated them. *)
Theorem enrich_returns_model_cases (v : Variant) (w : World) (env : Env)
    (d : StageData BaseCase) (t : list Event) (out : StageData EnrichedCase) :
  execute (enrichCasesWithMetricsStep v w env) d = (t, Ok out) ->
  let params :=
    {| model := OPENAI_MODEL env;
       system := enrichCases_system v;
       prompt := enrichCases_prompt v w d |} in
  metricFocus out = metricFocus d
  /\ language out = language d
  /\ includeSources out = includeSources d
  /\ Contains (JSON_stringify w (JArr (map json_of_baseCase (cases d)))) (prompt params)
  /\ exists answer,
       cases out = enrichedCaseList answer
       /\ if textMode v env
          then exists text parsed,
                 generateText w {| model := model params;
                                   system := jsonOnlySystem (system params);
                                   prompt := jsonOnlyPrompt (prompt params) |} = Ok text
                 /\ JSON_parse w text = Ok parsed
                 /\ enrichedCaseListSchema v parsed = Ok answer
          else generateObject_EnrichedCaseList w (enrichedCaseListSchema v) params
               = Ok answer.
Proof.
  intros H params. rewrite enrich_execute in H. injection H as _ H.
  apply fmap_Ok in H as (answer & H & ->). simpl.
  repeat (split; [reflexivity |]). split.
  - unfold enrichCases_prompt. apply Contains_append_r, Contains_append_l, Contains_refl.
  - exists answer. split; [reflexivity |].
    apply (adapter_Ok w v env _ _ _ _ H).
Qed.

Lemma enrich_returns_model_cases_witness :
  let w := sampleWorld [sampleCase] [renamedEnriched] in
  let env := sampleEnv "gpt-4o-mini" None in
  let d := {| cases := [sampleCase]; metricFocus := ["GMV"]; language := en;
              includeSources := true |} in
  exists answer,
    [renamedEnriched] = enrichedCaseList answer
    /\ generateObject_EnrichedCaseList w (enrichedCaseListSchema MarketResearch)
         (enrichCases_params MarketResearch w env d) = Ok answer.
Proof.
  intros w env d.
  exact (proj2 (proj2 (proj2 (proj2
    (enrich_returns_model_cases MarketResearch w env d
       [GenerateObject (enrichCases_params MarketResearch w env d)]
       {| cases := [renamedEnriched]; metricFocus := ["GMV"]; language := en;
          includeSources := true |} eq_refl))))).
Defined.

(** C1, as the claim states it, fails: the model answers the case under
    another brand, Stage 2 returns that answer, and Stage 3 accepts it. *)
Lemma enrich_output_differs_from_input :
  let w := sampleWorld [sampleCase] [renamedEnriched] in
  let env := sampleEnv "gpt-4o-mini" None in
  let d := {| cases := [sampleCase]; metricFocus := ["GMV"]; language := en;
              includeSources := true |} in
  exists out,
    outcome (execute (enrichCasesWithMetricsStep MarketResearch w env) d) = Ok out
    /\ map brand (cases d) = ["Acme"]
    /\ map (fun c => brand (base c)) (cases out) = ["Globex"]
    /\ map base (cases out) <> cases d
    /\ isOk (inputSchema (summarizeAndNotifyStep MarketResearch w env)
               (json_of_stageData json_of_enrichedCase out)) = true.
Proof.
  intros w env d. eexists. split; [reflexivity |].
  split; [reflexivity |]. split; [reflexivity |]. split; [| reflexivity].
  intros H. discriminate H.
Qed.

(** ** Stage boundaries *)

Lemma summarize_result (v : Variant) (w : World) (env : Env)
    (d : StageData EnrichedCase) (t : list Event) (res : WorkflowResult) :
  execute (summarizeAndNotifyStep v w env) d = (t, Ok res) ->
  resultCases res = cases d
  /\ resultSummary res = summaryText (includeSources d) (language d) (cases d).
Proof.
  destruct (slackWebhook env) as [hook|] eqn:E.
  - rewrite (summarize_with_webhook v w env hook d E).
    destruct (send w hook _ _); [| discriminate]. intros [= _ <-]. split; reflexivity.
  - rewrite (summarize_without_webhook v w env d E). intros [= _ <-]. split; reflexivity.
Qed.

(** C6.  At every stage boundary the invariants hold.  What reaches
    Stage 2 has between 1 and 6 cases and every case has at least one
    influencer; what reaches Stage 3, and what a run returns, has at least
    one case and every case has at least one influencer and at least one
    metric.  A stage result that the next input schema rejects ends the run
    with that error, the next stage not being run.  The bound of 6 is part of the schema of the
    adapter call only: in text mode the adapter checks it, in structured
    mode [generateObject] is taken to keep to the schema it is given. *)
Theorem stage_boundary_invariants (v : Variant) (w : World) (env : Env)
    (inputData : json) :
  (textMode v env = false -> KeepsToCaseListSchema w) ->
  (forall d, Stage2Receives v w env inputData d ->
     1 <= length (cases d) <= 6
     /\ Forall (fun c => 1 <= length (influencers c)) (cases d))
  /\ (forall d, Stage3Receives v w env inputData d ->
        1 <= length (cases d)
        /\ Forall (fun c => 1 <= length (influencers (base c))
                            /\ 1 <= length (metrics c)) (cases d))
  /\ (forall t1 out1 e,
        runStep (collectStep v w env) inputData = (t1, Ok out1) ->
        inputSchema (enrichCasesWithMetricsStep v w env)
          (json_of_stageData json_of_baseCase out1) = Err e ->
        workflow v w env inputData = (t1, Err e))
  /\ (forall t1 out1 t2 out2 e,
        runStep (collectStep v w env) inputData = (t1, Ok out1) ->
        runStep (enrichCasesWithMetricsStep v w env)
          (json_of_stageData json_of_baseCase out1) = (t2, Ok out2) ->
        inputSchema (summarizeAndNotifyStep v w env)
          (json_of_stageData json_of_enrichedCase out2) = Err e ->
        workflow v w env inputData = (t1 ++ t2, Err e))
  /\ (forall t res,
        workflow v w env inputData = (t, Ok res) ->
        1 <= length (resultCases res)
        /\ Forall (fun c => 1 <= length (influencers (base c))
                            /\ 1 <= length (metrics c)) (resultCases res)).
Proof.
  intros Hkeeps. split; [| split; [| split; [| split]]].
  - intros d (t1 & out1 & Hrun & Hd). simpl in Hd.
    destruct (stageDataSchema_Ok _ _ _ _ baseCaseSchema_Ok Hd) as [Hlen Hinf].
    split; [| exact Hinf]. split; [exact Hlen |].
    apply runStep_inv in Hrun as [(e & _ & _ & [=]) | (i & _ & Hrun)].
    rewrite collect_execute in Hrun. injection Hrun as _ Hrun.
    apply fmap_Ok in Hrun as (answer & Hanswer & ->).
    apply adapter_Ok in Hanswer.
    apply stageData_reread in Hd as (Hcases & _). simpl in Hcases.
    apply Forall2_length in Hcases.
    assert (Hread : exists j, caseListSchema j = Ok answer).
    { destruct (textMode v env).
      - destruct Hanswer as (text & parsed & _ & _ & Hanswer). eauto.
      - exact (Hkeeps eq_refl _ _ _ Hanswer). }
    destruct Hread as [j Hread].
    apply caseListSchema_Ok in Hread as [Hmax _]. lia.
  - intros d (d2 & t2 & out2 & _ & _ & Hd). simpl in Hd.
    exact (stageDataSchema_Ok _ _ _ _ (enrichedCaseSchema_Ok v) Hd).
  - intros t1 out1 e H1 H2. rewrite workflow_steps, H1.
    rewrite (runStep_Err _ _ _ H2). now rewrite app_nil_r.
  - intros t1 out1 t2 out2 e H1 H2 H3. rewrite workflow_steps, H1, H2.
    rewrite (runStep_Err _ _ _ H3). now rewrite app_nil_r.
  - intros t res H. rewrite workflow_steps in H.
    destruct (runStep (collectStep v w env) inputData) as [t1 [out1|e]];
      [| discriminate H].
    destruct (runStep (enrichCasesWithMetricsStep v w env) _) as [t2 [out2|e]];
      [| discriminate H].
    destruct (runStep (summarizeAndNotifyStep v w env) _) as [t3 r3] eqn:E3.
    injection H as _ ->.
    apply runStep_inv in E3 as [(e & _ & _ & [=]) | (d3 & Hd3 & X3)].
    apply summarize_result in X3 as [-> _]. simpl in Hd3.
    exact (stageDataSchema_Ok _ _ _ _ (enrichedCaseSchema_Ok v) Hd3).
Qed.

Lemma stage_boundary_invariants_witness :
  let w := parsingWorld (json_of_caseList {| caseList := [sampleCase] |})
             (json_of_enrichedCaseList {| enrichedCaseList := [sampleEnriched] |}) in
  let env := sampleEnv "gpt-4o-mini" None in
  let inputData := JObj [("focusKeyword", JStr "live commerce")] in
  let d := {| cases := [sampleCase]; metricFocus := ["売上"; "GMV"; "CVR"];
              language := ja; includeSources := true |} in
  Stage2Receives MarketResearch w env inputData d
  /\ 1 <= length (cases d) <= 6
  /\ Forall (fun c => 1 <= length (influencers c)) (cases d).
Proof.
  intros w env inputData d.
  assert (H : Stage2Receives MarketResearch w env inputData d)
    by (eexists _, _; split; reflexivity).
  split; [exact H |].
  refine (proj1 (stage_boundary_invariants MarketResearch w env inputData _) d H).
  intros _ schema params l Hl. exists (json_of_caseList {| caseList := [sampleCase] |}).
  exact Hl.
Defined.

(** Seven cases from the model in structured mode: [generateObject] was
    handed [caseListSchema], which allows six, and fails; the run ends
    there, after one call of the model. *)
Example seven_cases_end_run :
  let w := sampleWorld (repeat sampleCase 7) [sampleEnriched] in
  let env := sampleEnv "gpt-4o-mini" None in
  let run := workflow MarketResearch w env (JObj [("focusKeyword", JStr "live commerce")]) in
  textMode MarketResearch env = false
  /\ isOk (outcome run) = false
  /\ length (trace run) = 1.
Proof. repeat split. Qed.

(** ** The workflow input *)

Lemma workflow_calls_model (v : Variant) (w : World) (env : Env) (inputData : json)
    (i : WorkflowInput) :
  inputSchema (collectStep v w env) inputData = Ok i ->
  exists call rest,
    trace (workflow v w env inputData) = call :: rest /\ isModelCall call = true.
Proof.
  intros H. rewrite workflow_steps, (runStep_Ok _ _ _ H), collect_execute.
  destruct (adapter_trace w v env (generateObject_CaseList w) caseListSchema
              (collect_params v env i)) as (call & rest & Ht & Hcall & _).
  rewrite Ht. exists call.
  destruct (_ <$> outcome _) as [out1|e]; [| eauto].
  destruct (runStep (enrichCasesWithMetricsStep v w env) _) as [t2 [out2|e]]; [| eauto].
  destruct (runStep (summarizeAndNotifyStep v w env) _) as [t3 r]. eauto.
Qed.

Lemma z_string_min_Ok (n : nat) (msg : string) (j : json) (s : string) :
  z_string_min n msg j = Ok s -> j = JStr s /\ n <= String.length s.
Proof.
  unfold z_string_min. intros H. apply bind_Ok in H as (s' & H1 & H2).
  destruct j; try discriminate H1. injection H1 as ->.
  destruct (Nat.leb n (String.length s')) eqn:E; [| discriminate H2].
  injection H2 as <-. split; [reflexivity | now apply Nat.leb_le].
Qed.

(** C7 (as amended).  In the market-research workflow [focusKeyword] is
    required and must not be empty: a run whose input has it empty, or has
    none, fails in the input check of Stage 1 having called nothing, and a
    run that calls the model has a non-empty [focusKeyword].  In the
    commerce-influencer workflow [focusKeyword] has a default and may be
    empty: an input that passes the input check leads to a model call, and
    the input [{ focusKeyword: "" }] passes it. *)
Theorem focusKeyword_required (w : World) (env : Env) (fields : list (string * json)) :
  (prop "focusKeyword" fields = JStr "" ->
     workflow MarketResearch w env (JObj fields)
     = ([], Err (ZodError "focusKeyword is required")))
  /\ (prop "focusKeyword" fields = JUndefined ->
        exists e, workflow MarketResearch w env (JObj fields) = ([], Err e))
  /\ (existsb isModelCall (trace (workflow MarketResearch w env (JObj fields))) = true ->
        exists s, prop "focusKeyword" fields = JStr s /\ s <> "")
  /\ (forall i, collectCompetitorCasesStep_inputSchema (JObj fields) = Ok i ->
        exists call rest,
          trace (workflow CommerceInfluencer w env (JObj fields)) = call :: rest
          /\ isModelCall call = true)
  /\ collectCompetitorCasesStep_inputSchema (JObj [("focusKeyword", JStr "")])
     = Ok {| focusKeyword := ""; inputGeography := "Japan"; minExamples := 3;
             inputLanguage := ja; inputMetricFocus := ["売上"; "CVR"; "ROI"];
             inputIncludeSources := true |}
  /\ collectCompetitorCasesStep_inputSchema (JObj [])
     = Ok {| focusKeyword := "コマース x インフルエンサー"; inputGeography := "Japan";
             minExamples := 3; inputLanguage := ja;
             inputMetricFocus := ["売上"; "CVR"; "ROI"]; inputIncludeSources := true |}.
Proof.
  split; [| split; [| split; [| split; [| split; reflexivity]]]].
  - intros H. rewrite workflow_steps. erewrite runStep_Err; [reflexivity |].
    simpl. unfold collectCasesStep_inputSchema, field. simpl. now rewrite H.
  - intros H. eexists. rewrite workflow_steps. erewrite runStep_Err; [reflexivity |].
    simpl. unfold collectCasesStep_inputSchema, field. simpl. now rewrite H.
  - intros H.
    destruct (inputSchema (collectStep MarketResearch w env) (JObj fields)) as [i|e] eqn:E.
    + simpl in E. unfold collectCasesStep_inputSchema in E. parse_ok E.
      match goal with Q : z_object _ = Ok _ |- _ => simpl in Q; injection Q as <- end.
      match goal with
      | Q : field _ "focusKeyword" _ = Ok ?s |- _ =>
          apply z_string_min_Ok in Q as [Q Hlen]; exists s; split; [exact Q |];
          intros ->; simpl in Hlen; lia
      end.
    + rewrite workflow_steps, (runStep_Err _ _ _ E) in H. discriminate H.
  - intros i H. apply (workflow_calls_model CommerceInfluencer w env _ i H).
Qed.

Lemma focusKeyword_required_witness :
  workflow MarketResearch (sampleWorld [sampleCase] [sampleEnriched])
    (sampleEnv "gpt-4o-mini" None)
    (JObj [("focusKeyword", JStr ""); ("geography", JStr "Japan")])
  = ([], Err (ZodError "focusKeyword is required")).
Proof.
  exact (proj1 (focusKeyword_required (sampleWorld [sampleCase] [sampleEnriched])
                  (sampleEnv "gpt-4o-mini" None)
                  [("focusKeyword", JStr ""); ("geography", JStr "Japan")]) eq_refl).
Defined.

(** C7, as the claim states it, fails for the commerce-influencer workflow:
    the empty [focusKeyword] passes the input check and the model is
    called. *)
Lemma empty_focusKeyword_accepted_commerce :
  let w := sampleWorld [sampleCase] [sampleEnriched] in
  let env := sampleEnv "gpt-4o-mini" None in
  let inputData := JObj [("focusKeyword", JStr "")] in
  exists i call rest,
    inputSchema (collectStep CommerceInfluencer w env) inputData = Ok i
    /\ focusKeyword i = ""
    /\ trace (workflow CommerceInfluencer w env inputData) = call :: rest
    /\ isModelCall call = true.
Proof.
  intros w env inputData. eexists _, _, _.
  split; [reflexivity |]. split; [reflexivity |]. split; reflexivity.
Qed.

(** ** The summary text *)

Lemma caseText_withoutSources (lang : Language) (idx : nat) (c : EnrichedCase) :
  caseText false lang idx (withoutSources c) = caseText false lang idx c.
Proof. reflexivity. Qed.

(** C8 (as amended).  A metric line is [- <name>: <value>] followed by the
    currency, the timeframe in parentheses and [｜<note>], each left out
    exactly when the field is absent, [null] or the empty string.  The
    text of a case is its text without sources followed, exactly when
    [includeSources] is true and the case has at least one source, by a
    line break and the line [Sources: ] (or [参考: ]) with the URLs joined
    by ", ".  With [includeSources] false the summary does not depend on
    the sources of the cases. *)
Theorem summary_lines (inc : bool) (lang : Language) :
  (forall m, metricLine m = specMetricLine (dropEmpty m))
  /\ (forall m, nonEmpty (mjoin (currency m)) = mjoin (currency m) ->
                nonEmpty (metricTimeframe m) = metricTimeframe m ->
                nonEmpty (note m) = note m ->
                metricLine m = specMetricLine m)
  /\ (forall idx c,
        caseText false lang idx c
        = numberToString (Z.of_nat idx + 1) +:+ ". " +:+ brand (base c) +:+ " / "
          +:+ campaignName (base c) +:+ nl +:+ summary (base c) +:+ nl
          +:+ match lang with ja => "主要KPI" | en => "Key KPIs" end +:+ ":" +:+ nl
          +:+ join nl (map metricLine (metrics c)))
  /\ (forall idx c,
        caseText inc lang idx c
        = caseText false lang idx c
          +:+ match sources (base c) with
              | Some (u :: us) =>
                  if inc
                  then nl +:+ match lang with ja => "参考" | en => "Sources" end
                       +:+ ": " +:+ join ", " (u :: us)
                  else ""
              | _ => ""
              end)
  /\ (forall cases,
        summaryText false lang cases = summaryText false lang (map withoutSources cases)).
Proof.
  split; [| split; [| split; [| split]]].
  - intros [mt vl [[[|? ?]|]|] [[|? ?]|] [[|? ?]|]]; reflexivity.
  - intros [mt vl [[[|? ?]|]|] [[|? ?]|] [[|? ?]|]]; simpl; intros; try discriminate;
      reflexivity.
  - intros idx c. unfold caseText, sourcesLine. simpl.
    rewrite append_nil_r. now destruct lang.
  - intros idx c. unfold caseText, sourcesLine.
    destruct (sources (base c)) as [[|u us]|]; destruct inc; simpl;
      rewrite ?append_nil_r, ?append_assoc; reflexivity.
  - intros cases. unfold summaryText. f_equal.
    change (map withoutSources cases) with (withoutSources <$> cases).
    rewrite imap_fmap. apply imap_ext_in. intros i c _. reflexivity.
Qed.

Lemma summary_lines_witness :
  metricLine gmvMetric = specMetricLine gmvMetric
  /\ metricLine gmvMetric = "- GMV: 120 JPY (2023)｜reported".
Proof.
  split; [| reflexivity].
  exact (proj1 (proj2 (summary_lines true en)) gmvMetric eq_refl eq_refl eq_refl).
Defined.

(** C8, as the claim states it, fails: a currency that is present but empty
    is left out of the line, as if it were absent. *)
Lemma empty_currency_left_out :
  currency cvrMetric = Some (Some "")
  /\ metricLine cvrMetric = "- CVR: 3%"
  /\ specMetricLine cvrMetric = "- CVR: 3% "
  /\ metricLine cvrMetric <> specMetricLine cvrMetric.
Proof. repeat split. intros H. discriminate H. Qed.

(** ** Sample runs *)

Lemma chat_blocks_bounded_witness :
  let w := sampleWorld [] [] in
  let env := sampleEnv "gpt-4o-mini" (Some "https://hooks.slack.example/T0/B0") in
  exists bs,
    trace (execute (summarizeAndNotifyStep MarketResearch w env) (sampleStage3Input 60))
    = [WebhookSend sampleHook (summaryText true en (repeat sampleEnriched 60)) bs]
    /\ length bs = 50
    /\ bs !! 49 = Some (SectionBlock ("*49. Acme — Spring Live*" +:+ nl
                                      +:+ "A live-commerce campaign." +:+ nl
                                      +:+ "Key KPIs: GMV: 120 / CVR: 3%"))
    /\ bs !! 50 = None
    /\ Contains ("60. Acme / Spring Live" +:+ nl
                 +:+ "A live-commerce campaign." +:+ nl
                 +:+ "Key KPIs:" +:+ nl
                 +:+ "- GMV: 120 JPY (2023)｜reported" +:+ nl
                 +:+ "- CVR: 3%" +:+ nl
                 +:+ "Sources: https://a.example, https://b.example")
         (summaryText true en (repeat sampleEnriched 60)).
Proof.
  intros w env.
  destruct (chat_blocks_bounded MarketResearch w env sampleHook (sampleStage3Input 60)
              eq_refl) as (bs & H1 & H2 & _ & _ & _ & _ & _ & _ & H9 & H10 & _ & H12).
  exists bs. split; [exact H1 |]. split; [exact H2 |].
  split; [exact (H9 48 sampleEnriched eq_refl (Nat.lt_succ_diag_r 48)) |].
  split; [exact (H10 49 (le_n 49)) |].
  exact (H12 59 sampleEnriched eq_refl).
Defined.

Lemma no_webhook_no_send_witness :
  let w := sampleWorld [] [] in
  let env := sampleEnv "gpt-4o-mini" None in
  let run := execute (summarizeAndNotifyStep CommerceInfluencer w env)
               (sampleStage3Input 2) in
  trace run = [ConsoleWarn skipWarning]
  /\ outcome run
     = Ok {| resultSummary :=
               "1. Acme / Spring Live" +:+ nl
               +:+ "A live-commerce campaign." +:+ nl
               +:+ "Key KPIs:" +:+ nl
               +:+ "- GMV: 120 JPY (2023)｜reported" +:+ nl
               +:+ "- CVR: 3%" +:+ nl
               +:+ "Sources: https://a.example, https://b.example" +:+ nl +:+ nl
               +:+ "2. Acme / Spring Live" +:+ nl
               +:+ "A live-commerce campaign." +:+ nl
               +:+ "Key KPIs:" +:+ nl
               +:+ "- GMV: 120 JPY (2023)｜reported" +:+ nl
               +:+ "- CVR: 3%" +:+ nl
               +:+ "Sources: https://a.example, https://b.example";
             sentToSlack := false;
             resultCases := [sampleEnriched; sampleEnriched] |}.
Proof.
  intros w env run.
  destruct (no_webhook_no_send CommerceInfluencer w env (sampleStage3Input 2) eq_refl)
    as (H1 & _ & H3 & _).
  split; [exact H1 | exact H3].
Defined.

Lemma mode_selection_witness :
  textMode MarketResearch (sampleEnv "gpt-5-mini" None) = true
  /\ textMode CommerceInfluencer (sampleEnv "gpt-5-mini" None) = false
  /\ textMode CommerceInfluencer (sampleEnv "gpt-5-search-api" None) = true.
Proof.
  split; [| split; [reflexivity |]].
  - apply (proj1 (mode_selection (sampleEnv "gpt-5-mini" None))).
    right. exists "-mini". reflexivity.
  - apply (proj1 (proj2 (mode_selection (sampleEnv "gpt-5-search-api" None)))).
    exists "gpt-5-", "-api". reflexivity.
Defined.

(** A whole run in text mode: the market-research workflow on "gpt-5-mini",
    without webhook, with a model that answers one case and then its two
    metrics. *)
Example text_mode_run :
  workflow MarketResearch textWorld (sampleEnv "gpt-5-mini" None)
    (JObj [("focusKeyword", JStr "SaaS x AI"); ("minExamples", JNum (2 # 1));
           ("language", JStr "en")])
  = ([GenerateText
        {| model := "gpt-5-mini";
           system := jsonOnlySystem (system (collectCases_params (sampleEnv "gpt-5-mini" None)
                       {| focusKeyword := "SaaS x AI"; inputGeography := "Japan";
                          minExamples := 2; inputLanguage := en;
                          inputMetricFocus := ["売上"; "GMV"; "CVR"];
                          inputIncludeSources := true |}));
           prompt := jsonOnlyPrompt (prompt (collectCases_params (sampleEnv "gpt-5-mini" None)
                       {| focusKeyword := "SaaS x AI"; inputGeography := "Japan";
                          minExamples := 2; inputLanguage := en;
                          inputMetricFocus := ["売上"; "GMV"; "CVR"];
                          inputIncludeSources := true |})) |};
      GenerateText
        {| model := "gpt-5-mini";
           system := jsonOnlySystem (enrichCases_system MarketResearch);
           prompt := jsonOnlyPrompt (enrichCases_prompt MarketResearch textWorld
                       {| cases := [sampleCase]; metricFocus := ["売上"; "GMV"; "CVR"];
                          language := en; includeSources := true |}) |};
      ConsoleWarn skipWarning],
     Ok {| resultSummary := summaryText true en [sampleEnriched];
           sentToSlack := false;
           resultCases := [sampleEnriched] |}).
Proof. vm_compute. reflexivity. Qed.

(** The same model behind the commerce-influencer workflow: "gpt-5-mini"
    does not contain "search", the adapter calls [generateObject], and the
    failure of that call ends the run. *)
Example structured_mode_upstream_failure :
  outcome (workflow CommerceInfluencer textWorld (sampleEnv "gpt-5-mini" None) (JObj []))
  = Err (UpstreamError "400 Bad Request").
Proof. reflexivity. Qed.

(** * Further properties *)

(** ** Reading back what was written *)

Lemma strings_reread (l : list string) : parseAll z_string (map JStr l) = Ok l.
Proof.
  induction l as [|x l IH]; [reflexivity |].
  cbn [map parseAll]. rewrite IH. reflexivity.
Qed.

Lemma influencer_reread (i : Influencer) : influencerSchema (json_of_influencer i) = Ok i.
Proof. destruct i as [n [p|] [h|] [f|] [po|]]; reflexivity. Qed.

Lemma influencers_reread (l : list Influencer) :
  parseAll influencerSchema (map json_of_influencer l) = Ok l.
Proof.
  induction l as [|x l IH]; [reflexivity |].
  cbn [map parseAll]. rewrite influencer_reread, IH. reflexivity.
Qed.

Lemma caseObject_reread (c : BaseCase) (extra : option (list json)) :
  validBaseCase c = true -> baseCaseSchema (caseObject c extra) = Ok c.
Proof.
  intros V. destruct c as [b cn g tf s pf ot infl src]. unfold validBaseCase in V.
  simpl in V. destruct infl as [|i infl]; [discriminate V |].
  assert (Hsrc : src <> Some []) by (intros ->; discriminate V). clear V.
  pose proof (influencers_reread (i :: infl)) as Hinfl.
  unfold caseObject, baseCaseSchema, JObj_of, baseCase_fields, field, z_min, z_array.
  destruct extra, tf, pf, ot, src as [[|u us]|]; try congruence;
    cbn -[parseAll map]; rewrite Hinfl; cbn -[parseAll map];
    rewrite ?strings_reread; reflexivity.
Qed.

Lemma caseObject_valid (c c' : BaseCase) (extra : option (list json)) :
  baseCaseSchema (caseObject c extra) = Ok c' -> validBaseCase c = true.
Proof.
  destruct (validBaseCase c) eqn:V; [reflexivity |]. intros H. exfalso.
  destruct c as [b cn g tf s pf ot infl src]. unfold validBaseCase in V. simpl in V.
  unfold caseObject, baseCaseSchema, JObj_of, baseCase_fields, field, z_min, z_array in H.
  destruct infl as [|i infl].
  - destruct extra, tf, pf, ot, src as [[|u us]|]; discriminate H.
  - destruct src as [[|u us]|]; try discriminate V.
    pose proof (influencers_reread (i :: infl)) as Hinfl.
    destruct extra, tf, pf, ot; cbn -[parseAll map] in H; rewrite Hinfl in H;
      discriminate H.
Qed.

Lemma baseCaseSchema_sources (j : json) (c : BaseCase) :
  baseCaseSchema j = Ok c -> sources c <> Some [].
Proof.
  unfold baseCaseSchema. intros H. parse_ok H. injection H as <-. cbn [sources].
  match goal with
  | Q : field _ "sources" _ = Ok ?s |- _ =>
      unfold field, z_optional in Q; destruct (prop "sources" _);
      try (injection Q as <-; discriminate);
      apply fmap_Ok in Q as (srcs & Q & ->); apply z_min_Ok in Q as [_ Q];
      intros [= ->]; simpl in Q; lia
  end.
Qed.

Lemma baseCaseSchema_valid (j : json) (c : BaseCase) :
  baseCaseSchema j = Ok c -> validBaseCase c = true.
Proof.
  intros H. pose proof (baseCaseSchema_Ok j c H) as Hinfl.
  pose proof (baseCaseSchema_sources j c H) as Hsrc.
  unfold validBaseCase. apply andb_true_intro. split.
  - destruct (influencers c); [simpl in Hinfl; lia | reflexivity].
  - destruct (sources c) as [[|u us]|]; congruence.
Qed.

Lemma metric_reread (v : Variant) (m : Metric) :
  validMetric v m = true -> metricSchema v (json_of_metric m) = Ok m.
Proof.
  destruct v, m as [mt vl [[c|]|] [tf|] [nt|]]; intros V;
    try discriminate V; reflexivity.
Qed.

Lemma metric_valid (v : Variant) (m m' : Metric) :
  metricSchema v (json_of_metric m) = Ok m' -> validMetric v m = true.
Proof.
  destruct v, m as [mt vl [[c|]|] [tf|] [nt|]]; intros H;
    try reflexivity; discriminate H.
Qed.

Lemma metricSchema_valid (v : Variant) (j : json) (m : Metric) :
  metricSchema v j = Ok m -> validMetric v m = true.
Proof.
  destruct v; [| intros _; unfold validMetric; now destruct (currency m)].
  unfold metricSchema. intros H. parse_ok H. injection H as <-.
  match goal with
  | Q : field _ "currency" _ = Ok ?c |- _ =>
      unfold field, currencySchema in Q; apply bind_Ok in Q as (o & _ & Q);
      injection Q as <-; now destruct o
  end.
Qed.

Lemma metrics_reread (v : Variant) (l : list Metric) :
  forallb (validMetric v) l = true ->
  parseAll (metricSchema v) (map json_of_metric l) = Ok l.
Proof.
  induction l as [|m l IH]; [reflexivity |]. cbn [forallb map parseAll].
  intros H. apply andb_prop in H as [Hm Hl]. rewrite (metric_reread v m Hm), (IH Hl).
  reflexivity.
Qed.

Lemma metrics_valid (v : Variant) (l l' : list Metric) :
  parseAll (metricSchema v) (map json_of_metric l) = Ok l' ->
  forallb (validMetric v) l = true.
Proof.
  revert l'. induction l as [|m l IH]; intros l' H; [reflexivity |].
  cbn [map parseAll] in H. apply bind_Ok in H as (m' & Hm & H).
  apply bind_Ok in H as (l'' & Hl & _). cbn [forallb].
  now rewrite (metric_valid v m m' Hm), (IH l'' Hl).
Qed.

Lemma parseAll_valid {T} (s : Schema T) (valid : T -> bool) (l : list json) (xs : list T) :
  (forall j x, s j = Ok x -> valid x = true) ->
  parseAll s l = Ok xs -> forallb valid xs = true.
Proof.
  intros Hs H. apply parseAll_Forall2 in H.
  induction H as [|j x l xs Hx _ IH]; [reflexivity |].
  cbn [forallb]. now rewrite (Hs j x Hx), IH.
Qed.

Lemma prop_metrics (c : BaseCase) (x : list json) :
  prop "metrics" (List.filter (fun kv => match snd kv with JUndefined => false | _ => true end)
                    (baseCase_fields c ++ [("metrics", JArr x)])) = JArr x.
Proof.
  destruct c as [b cn g [tf|] s [pf|] [ot|] infl [src|]]; reflexivity.
Qed.

Lemma enrichedCase_reread (v : Variant) (c : EnrichedCase) :
  validEnrichedCase v c = true -> enrichedCaseSchema v (json_of_enrichedCase c) = Ok c.
Proof.
  unfold validEnrichedCase. intros V. apply andb_prop in V as [V Vm].
  apply andb_prop in V as [Vb Vn].
  unfold enrichedCaseSchema.
  change (json_of_enrichedCase c)
    with (caseObject (base c) (Some (map json_of_metric (metrics c)))).
  rewrite (caseObject_reread _ _ Vb). cbn [mbind result_bind].
  unfold caseObject, JObj_of. cbn [z_object mbind result_bind].
  unfold field. rewrite prop_metrics. unfold z_min, z_array.
  rewrite (metrics_reread v _ Vm). cbn [mbind result_bind].
  destruct c as [b [|m ms]]; [discriminate Vn | reflexivity].
Qed.

Lemma enrichedCase_valid (v : Variant) (c c' : EnrichedCase) :
  enrichedCaseSchema v (json_of_enrichedCase c) = Ok c' -> validEnrichedCase v c = true.
Proof.
  unfold enrichedCaseSchema.
  change (json_of_enrichedCase c)
    with (caseObject (base c) (Some (map json_of_metric (metrics c)))).
  intros H. apply bind_Ok in H as (b & Hb & H).
  apply caseObject_valid in Hb. unfold caseObject, JObj_of in H.
  cbn [z_object mbind result_bind] in H. unfold field in H. rewrite prop_metrics in H.
  apply bind_Ok in H as (ms & Hms & _). apply z_min_Ok in Hms as [Hms Hlen].
  cbn [z_array] in Hms. pose proof (parseAll_length _ _ _ Hms) as Hl.
  rewrite length_map in Hl.
  apply metrics_valid in Hms. unfold validEnrichedCase. rewrite Hb, Hms.
  destruct (metrics c); [simpl in *; lia | reflexivity].
Qed.

Lemma enrichedCaseSchema_valid (v : Variant) (j : json) (c : EnrichedCase) :
  enrichedCaseSchema v j = Ok c -> validEnrichedCase v c = true.
Proof.
  intros H. destruct (enrichedCaseSchema_Ok v j c H) as [_ Hlen].
  unfold enrichedCaseSchema in H. parse_ok H. injection H as <-.
  unfold validEnrichedCase. cbn [base metrics] in *.
  match goal with Q : baseCaseSchema _ = Ok _ |- _ => rewrite (baseCaseSchema_valid _ _ Q) end.
  match goal with
  | Q : field _ "metrics" _ = Ok ?ms |- _ =>
      apply z_min_Ok in Q as [Q _]; unfold z_array in Q;
      destruct (prop "metrics" _); try discriminate Q;
      rewrite (parseAll_valid _ _ _ _ (metricSchema_valid v) Q);
      destruct ms; [simpl in Hlen; lia | reflexivity]
  end.
Qed.

(** X1.  A case that [baseCaseSchema] accepted is accepted again, unchanged,
    when written back as an object; a typed case written as an object is
    accepted exactly when it has an influencer and its [sources], if
    present, are not empty, and then it is read back as it was. *)
Theorem baseCase_round_trip :
  (forall j c, baseCaseSchema j = Ok c -> baseCaseSchema (json_of_baseCase c) = Ok c)
  /\ (forall c, isOk (baseCaseSchema (json_of_baseCase c)) = validBaseCase c)
  /\ (forall c c', baseCaseSchema (json_of_baseCase c) = Ok c' -> c' = c).
Proof.
  assert (E : forall c, json_of_baseCase c = caseObject c None).
  { intros c. unfold json_of_baseCase, caseObject. now rewrite app_nil_r. }
  split; [| split].
  - intros j c H. rewrite E. apply caseObject_reread. exact (baseCaseSchema_valid j c H).
  - intros c. rewrite E. destruct (validBaseCase c) eqn:V.
    + now rewrite (caseObject_reread c None V).
    + destruct (baseCaseSchema (caseObject c None)) as [c'|e] eqn:H; [| reflexivity].
      apply caseObject_valid in H. congruence.
  - intros c c' H. rewrite E in H. pose proof (caseObject_valid _ _ _ H) as V.
    rewrite (caseObject_reread c None V) in H. congruence.
Qed.

Lemma baseCase_round_trip_witness :
  baseCaseSchema (json_of_baseCase sampleCase) = Ok sampleCase.
Proof.
  exact (proj1 baseCase_round_trip (json_of_baseCase sampleCase) sampleCase eq_refl).
Defined.

(** X2.  In both workflows an enriched case that [enrichedCaseSchema]
    accepted is accepted again, unchanged, when written back as an object;
    a typed enriched case written as an object is accepted exactly when it
    has an influencer, its [sources], if present, are not empty, it has a
    metric and, in the commerce-influencer workflow, no metric has a [null]
    currency, and then it is read back as it was. *)
Theorem enrichedCase_round_trip (v : Variant) :
  (forall j c, enrichedCaseSchema v j = Ok c ->
               enrichedCaseSchema v (json_of_enrichedCase c) = Ok c)
  /\ (forall c, isOk (enrichedCaseSchema v (json_of_enrichedCase c))
                = validEnrichedCase v c)
  /\ (forall c c', enrichedCaseSchema v (json_of_enrichedCase c) = Ok c' -> c' = c).
Proof.
  split; [| split].
  - intros j c H. apply enrichedCase_reread. exact (enrichedCaseSchema_valid v j c H).
  - intros c. destruct (validEnrichedCase v c) eqn:V.
    + now rewrite (enrichedCase_reread v c V).
    + destruct (enrichedCaseSchema v (json_of_enrichedCase c)) as [c'|e] eqn:H;
        [| reflexivity].
      apply enrichedCase_valid in H. congruence.
  - intros c c' H. pose proof (enrichedCase_valid _ _ _ H) as V.
    rewrite (enrichedCase_reread v c V) in H. congruence.
Qed.

Lemma enrichedCase_round_trip_witness :
  enrichedCaseSchema CommerceInfluencer (json_of_enrichedCase sampleEnriched)
  = Ok sampleEnriched.
Proof.
  exact (proj1 (enrichedCase_round_trip CommerceInfluencer)
           (json_of_enrichedCase sampleEnriched) sampleEnriched eq_refl).
Defined.

(** ** Between the stages *)

Lemma baseCase_reread_eq (c c' : BaseCase) :
  baseCaseSchema (json_of_baseCase c) = Ok c' -> c' = c.
Proof.
  assert (E : json_of_baseCase c = caseObject c None).
  { unfold json_of_baseCase, caseObject. now rewrite app_nil_r. }
  rewrite E. intros H. pose proof (caseObject_valid _ _ _ H) as V.
  rewrite (caseObject_reread c None V) in H. congruence.
Qed.

Lemma enrichedCase_reread_eq (v : Variant) (c c' : EnrichedCase) :
  enrichedCaseSchema v (json_of_enrichedCase c) = Ok c' -> c' = c.
Proof.
  intros H. pose proof (enrichedCase_valid _ _ _ H) as V.
  rewrite (enrichedCase_reread v c V) in H. congruence.
Qed.

Lemma Forall2_reread {A B} (g : A -> result B) (h : B -> A) (l : list A) (l' : list B) :
  (forall x x', g x = Ok x' -> h x' = x) ->
  Forall2 (fun x x' => g x = Ok x') l l' -> map h l' = l.
Proof.
  intros Hg H. induction H as [|x x' l l' Hx _ IH]; [reflexivity |].
  simpl. now rewrite (Hg x x' Hx), IH.
Qed.

Lemma stageData_reread_eq {C} (s : Schema C) (f : C -> json) (d d' : StageData C) :
  (forall x x', s (f x) = Ok x' -> x' = x) ->
  stageDataSchema s (json_of_stageData f d) = Ok d' -> d' = d.
Proof.
  intros Hs H. apply stageData_reread in H as (Hc & Hm & Hl & Hi).
  apply (Forall2_reread (fun x => s (f x)) (fun x => x)) in Hc; [| exact Hs].
  rewrite List.map_id in Hc. destruct d, d'; simpl in *. congruence.
Qed.

(** X3.  The input check between two stages never changes the data: what
    reaches Stage 2 is what Stage 1 returned, and what reaches Stage 3 is
    what Stage 2 returned. *)
Theorem boundaries_keep_data (v : Variant) (w : World) (env : Env) (inputData : json) :
  (forall d, Stage2Receives v w env inputData d ->
     exists t1, runStep (collectStep v w env) inputData = (t1, Ok d))
  /\ (forall d, Stage3Receives v w env inputData d ->
        exists d2 t2,
          Stage2Receives v w env inputData d2
          /\ execute (enrichCasesWithMetricsStep v w env) d2 = (t2, Ok d)).
Proof.
  split.
  - intros d (t1 & out1 & Hrun & Hd). simpl in Hd.
    apply stageData_reread_eq in Hd; [| apply baseCase_reread_eq].
    subst d. eauto.
  - intros d (d2 & t2 & out2 & H2 & Hrun & Hd). simpl in Hd.
    apply stageData_reread_eq in Hd; [| apply enrichedCase_reread_eq].
    subst d. eauto.
Qed.

Lemma boundaries_keep_data_witness :
  let w := sampleWorld [sampleCase] [sampleEnriched] in
  let env := sampleEnv "gpt-4o-mini" None in
  let inputData := JObj [("focusKeyword", JStr "live commerce")] in
  let d := {| cases := [sampleCase]; metricFocus := ["売上"; "GMV"; "CVR"];
              language := ja; includeSources := true |} in
  exists t1, runStep (collectStep MarketResearch w env) inputData = (t1, Ok d).
Proof.
  intros w env inputData d.
  refine (proj1 (boundaries_keep_data MarketResearch w env inputData) d _).
  eexists _, _. split; reflexivity.
Defined.

(** ** What a run returns *)

Lemma runStep_Ok_inv {I O} (s : Step I O) (data : json) (t : list Event) (out : O) :
  runStep s data = (t, Ok out) ->
  exists inputData, inputSchema s data = Ok inputData /\ execute s inputData = (t, Ok out).
Proof.
  intros H. apply runStep_inv in H as [(e & _ & _ & [=]) | H]. exact H.
Qed.

(** A run that succeeds, taken apart. *)
Lemma run_Ok_inv (v : Variant) (w : World) (env : Env) (inputData : json)
    (t : list Event) (res : WorkflowResult) :
  workflow v w env inputData = (t, Ok res) ->
  exists i answer1 answer2 t3,
    let call1 := generateStructuredObject w v env (generateObject_CaseList w)
                   caseListSchema (collect_params v env i) in
    let d2 := {| cases := caseList answer1;
                 metricFocus := inputMetricFocus i;
                 language := inputLanguage i;
                 includeSources := inputIncludeSources i |} in
    let call2 := generateStructuredObject w v env (generateObject_EnrichedCaseList w)
                   (enrichedCaseListSchema v) (enrichCases_params v w env d2) in
    let d3 := {| cases := enrichedCaseList answer2;
                 metricFocus := inputMetricFocus i;
                 language := inputLanguage i;
                 includeSources := inputIncludeSources i |} in
    inputSchema (collectStep v w env) inputData = Ok i
    /\ outcome call1 = Ok answer1
    /\ outcome call2 = Ok answer2
    /\ execute (summarizeAndNotifyStep v w env) d3 = (t3, Ok res)
    /\ t = trace call1 ++ trace call2 ++ t3.
Proof.
  intros H. rewrite workflow_steps in H.
  destruct (runStep (collectStep v w env) inputData) as [t1 [out1|e]] eqn:E1;
    [| discriminate H].
  destruct (runStep (enrichCasesWithMetricsStep v w env) _) as [t2 [out2|e]] eqn:E2;
    [| discriminate H].
  destruct (runStep (summarizeAndNotifyStep v w env) _) as [t3 r3] eqn:E3.
  injection H as <- ->.
  apply runStep_Ok_inv in E1 as (i & Hi & X1).
  apply runStep_Ok_inv in E2 as (d2 & Hd2 & X2).
  apply runStep_Ok_inv in E3 as (d3 & Hd3 & X3).
  simpl in Hd2, Hd3.
  apply stageData_reread_eq in Hd2; [| apply baseCase_reread_eq].
  apply stageData_reread_eq in Hd3; [| apply enrichedCase_reread_eq].
  subst d2 d3.
  rewrite collect_execute in X1. injection X1 as T1 X1.
  apply fmap_Ok in X1 as (answer1 & A1 & ->).
  rewrite enrich_execute in X2. injection X2 as T2 X2.
  apply fmap_Ok in X2 as (answer2 & A2 & ->).
  exists i, answer1, answer2, t3. cbn zeta. rewrite T1, T2. auto.
Qed.



(** ** What a run does to the outside *)

Lemma count_app (p : Event -> bool) (a b : list Event) :
  count p (a ++ b) = count p a + count p b.
Proof. unfold count. now rewrite List.filter_app, length_app. Qed.

Lemma count_no_send (t : list Event) :
  existsb isWebhookSend t = false -> count isWebhookSend t = 0.
Proof.
  unfold count. induction t as [|ev t IH]; [reflexivity |]. simpl.
  destruct (isWebhookSend ev); [discriminate | exact IH].
Qed.

Lemma adapter_counts {T} (w : World) (v : Variant) (env : Env)
    (g : Schema T -> GenerateParams -> result T) (schema : Schema T)
    (params : GenerateParams) :
  count isModelCall (trace (generateStructuredObject w v env g schema params)) = 1.
Proof.
  destruct (adapter_trace w v env g schema params) as (call & rest & -> & Hcall & Hrest).
  unfold count. simpl. rewrite Hcall. simpl. f_equal.
  induction Hrest as [|ev rest [msg ->] _ IH]; [reflexivity | exact IH].
Qed.

(** The events of one stage, as run by the engine. *)
Lemma collect_events (v : Variant) (w : World) (env : Env) (data : json)
    (t : list Event) (r : result (StageData BaseCase)) :
  runStep (collectStep v w env) data = (t, r) ->
  existsb isWebhookSend t = false
  /\ count isModelCall t <= 1
  /\ (isOk r = true -> count isModelCall t = 1).
Proof.
  intros H. split; [exact (collect_no_send _ _ _ _ _ _ H) |].
  apply runStep_inv in H as [(e & _ & -> & ->) | (i & _ & H)].
  - split; [unfold count; simpl; lia | discriminate].
  - rewrite collect_execute in H. injection H as <- _.
    rewrite adapter_counts. split; [lia | reflexivity].
Qed.

Lemma enrich_events (v : Variant) (w : World) (env : Env) (data : json)
    (t : list Event) (r : result (StageData EnrichedCase)) :
  runStep (enrichCasesWithMetricsStep v w env) data = (t, r) ->
  existsb isWebhookSend t = false
  /\ count isModelCall t <= 1
  /\ (isOk r = true -> count isModelCall t = 1).
Proof.
  intros H. split; [exact (enrich_no_send _ _ _ _ _ _ H) |].
  apply runStep_inv in H as [(e & _ & -> & ->) | (i & _ & H)].
  - split; [unfold count; simpl; lia | discriminate].
  - rewrite enrich_execute in H. injection H as <- _.
    rewrite adapter_counts. split; [lia | reflexivity].
Qed.

Lemma summarize_events (v : Variant) (w : World) (env : Env) (data : json)
    (t : list Event) (r : result WorkflowResult) :
  runStep (summarizeAndNotifyStep v w env) data = (t, r) ->
  (t = [] /\ isOk r = false)
  \/ (exists hook text bs, slackWebhook env = Some hook /\ t = [WebhookSend hook text bs])
  \/ (slackWebhook env = None /\ t = [ConsoleWarn skipWarning] /\ isOk r = true).
Proof.
  intros H. apply runStep_inv in H as [(e & _ & -> & ->) | (d & _ & H)]; [now left |].
  right. destruct (slackWebhook env) as [hook|] eqn:E.
  - rewrite (summarize_with_webhook v w env hook d E) in H. injection H as <- _.
    left. eauto.
  - rewrite (summarize_without_webhook v w env d E) in H. injection H as <- <-.
    right. auto.
Qed.

Lemma send_is_last (p : list Event) (ev0 : Event) (t1 : list Event) (ev : Event)
    (t2 : list Event) :
  existsb isWebhookSend p = false ->
  p ++ [ev0] = t1 ++ ev :: t2 ->
  isWebhookSend ev = true ->
  t1 = p /\ t2 = [].
Proof.
  revert t1. induction p as [|a p IH]; intros t1 Hp H Hev.
  - destruct t1 as [|b t1]; simpl in H.
    + injection H as _ <-. auto.
    + injection H as _ H. destruct t1; discriminate H.
  - simpl in Hp. apply orb_false_elim in Hp as [Ha Hp].
    destruct t1 as [|b t1]; simpl in H.
    + injection H as -> _. congruence.
    + injection H as <- H. destruct (IH t1 Hp H Hev) as [-> ->]. auto.
Qed.

Lemma no_send_inside (p t1 : list Event) (ev : Event) (t2 : list Event) :
  existsb isWebhookSend p = false -> p = t1 ++ ev :: t2 -> isWebhookSend ev = false.
Proof.
  intros Hp ->. rewrite existsb_app in Hp. apply orb_false_elim in Hp as [_ Hp].
  simpl in Hp. now apply orb_false_elim in Hp as [Hp _].
Qed.

(** X5.  A run calls the model at most twice and the webhook at most once,
    and never calls either again after a failure.  A run that succeeds
    called the model exactly twice, and the webhook once or not at all
    according to whether one is configured.  The webhook is only called
    after both model calls, as the last thing the run does. *)
Theorem call_budget (v : Variant) (w : World) (env : Env) (inputData : json) :
  let run := workflow v w env inputData in
  count isModelCall (trace run) <= 2
  /\ count isWebhookSend (trace run) <= 1
  /\ (isOk (outcome run) = true ->
        count isModelCall (trace run) = 2
        /\ count isWebhookSend (trace run) = if hasWebhook env then 1 else 0)
  /\ (forall t1 ev t2,
        trace run = t1 ++ ev :: t2 -> isWebhookSend ev = true ->
        count isModelCall t1 = 2 /\ t2 = []).
Proof.
  intros run. subst run. rewrite workflow_steps.
  destruct (runStep (collectStep v w env) inputData) as [t1 r1] eqn:E1.
  destruct (collect_events _ _ _ _ _ _ E1) as (N1 & C1 & K1).
  destruct r1 as [out1|e]; unfold trace, outcome; cbn [fst snd].
  2:{ rewrite (count_no_send _ N1).
      split; [lia |]. split; [lia |]. split; [discriminate |].
      intros ta ev tb Ht Hev. pose proof (no_send_inside _ _ _ _ N1 Ht). congruence. }
  destruct (runStep (enrichCasesWithMetricsStep v w env) _) as [t2 r2] eqn:E2.
  destruct (enrich_events _ _ _ _ _ _ E2) as (N2 & C2 & K2).
  assert (N12 : existsb isWebhookSend (t1 ++ t2) = false)
    by (rewrite existsb_app, N1, N2; reflexivity).
  specialize (K1 eq_refl).
  destruct r2 as [out2|e]; cbn [fst snd].
  2:{ rewrite (count_no_send _ N12), count_app.
      split; [lia |]. split; [lia |]. split; [discriminate |].
      intros ta ev tb Ht Hev. pose proof (no_send_inside _ _ _ _ N12 Ht). congruence. }
  specialize (K2 eq_refl).
  destruct (runStep (summarizeAndNotifyStep v w env) _) as [t3 r3] eqn:E3.
  cbn [fst snd]. rewrite app_assoc, !count_app, (count_no_send _ N1), (count_no_send _ N2).
  rewrite K1, K2. unfold hasWebhook.
  apply summarize_events in E3
    as [[-> Hr] | [(hook & text & bs & EH & ->) | (EH & -> & Hr)]].
  - rewrite app_nil_r. unfold count at 1 2 3 4; cbn [List.filter length].
    split; [lia |]. split; [lia |]. split; [congruence |].
    intros ta ev tb Ht Hev. pose proof (no_send_inside _ _ _ _ N12 Ht). congruence.
  - rewrite EH. unfold count at 1 2 3 4; cbn [List.filter length isModelCall isWebhookSend].
    split; [lia |]. split; [lia |]. split; [intros _; split; lia |].
    intros ta ev tb Ht Hev. destruct (send_is_last _ _ _ _ _ N12 Ht Hev) as [-> ->].
    rewrite count_app. split; [lia | reflexivity].
  - rewrite EH. unfold count at 1 2 3 4; cbn [List.filter length isModelCall isWebhookSend].
    split; [lia |]. split; [lia |]. split; [intros _; split; lia |].
    intros ta ev tb Ht Hev.
    assert (N : existsb isWebhookSend ((t1 ++ t2) ++ [ConsoleWarn skipWarning]) = false)
      by (rewrite existsb_app, N12; reflexivity).
    pose proof (no_send_inside _ _ _ _ N Ht). congruence.
Qed.

Lemma call_budget_witness :
  let run := workflow MarketResearch textWorld
               (sampleEnv "gpt-5-mini" (Some "https://hooks.slack.example/T0/B0"))
               (JObj [("focusKeyword", JStr "SaaS x AI")]) in
  count isModelCall (trace run) = 2 /\ count isWebhookSend (trace run) = 1.
Proof.
  intros run.
  exact (proj1 (proj2 (proj2
    (call_budget MarketResearch textWorld
       (sampleEnv "gpt-5-mini" (Some "https://hooks.slack.example/T0/B0"))
       (JObj [("focusKeyword", JStr "SaaS x AI")])))) eq_refl).
Defined.

(** ** How a run fails *)

Lemma adapter_Err {T} (w : World) (v : Variant) (env : Env)
    (g : Schema T -> GenerateParams -> result T) (schema : Schema T)
    (params : GenerateParams) (e : JsError) :
  outcome (generateStructuredObject w v env g schema params) = Err e ->
  (exists p, generateText w p = Err e)
  \/ (exists error, e = Error (parseFailureMessage v error) /\ textMode v env = true)
  \/ g schema params = Err e.
Proof.
  destruct (textMode v env) eqn:E.
  - rewrite (adapter_text w v env g schema params E).
    destruct (generateText w _) as [text|e'] eqn:G.
    + destruct (JSON_parse w text ≫= schema) as [x|error]; [discriminate |].
      intros [= <-]. right. left. eauto.
    + intros [= <-]. left. eauto.
  - rewrite (adapter_structured w v env g schema params E). intros H. right. right. exact H.
Qed.

(** X6.  A run that fails ends with one of these errors and no other: the
    error of the input check of one of the three steps; the error that
    [generateText], [generateObject] or the webhook answered, unchanged;
    or, in text mode, the adapter's own error for a reply that does not
    parse or does not match the schema. *)
Theorem run_errors (v : Variant) (w : World) (env : Env) (inputData : json)
    (t : list Event) (e : JsError) :
  workflow v w env inputData = (t, Err e) ->
  inputSchema (collectStep v w env) inputData = Err e
  \/ (exists out1, inputSchema (enrichCasesWithMetricsStep v w env)
                     (json_of_stageData json_of_baseCase out1) = Err e)
  \/ (exists out2, inputSchema (summarizeAndNotifyStep v w env)
                     (json_of_stageData json_of_enrichedCase out2) = Err e)
  \/ (exists p, generateText w p = Err e)
  \/ (exists p, generateObject_CaseList w caseListSchema p = Err e)
  \/ (exists p, generateObject_EnrichedCaseList w (enrichedCaseListSchema v) p = Err e)
  \/ (exists hook text bs, send w hook text bs = Err e)
  \/ (exists error, e = Error (parseFailureMessage v error) /\ textMode v env = true).
Proof.
  intros H. rewrite workflow_steps in H.
  destruct (runStep (collectStep v w env) inputData) as [t1 r1] eqn:E1.
  destruct r1 as [out1|e1].
  2:{ injection H as _ ->.
      apply runStep_inv in E1 as [(e' & He & _ & [= <-]) | (i & _ & X)]; [now left |].
      rewrite collect_execute in X. injection X as _ X.
      destruct (outcome _) as [a|e'] eqn:A; [discriminate X |]. injection X as ->.
      apply adapter_Err in A as [A | [A | A]]; eauto 10. }
  destruct (runStep (enrichCasesWithMetricsStep v w env) _) as [t2 r2] eqn:E2.
  destruct r2 as [out2|e2].
  2:{ injection H as _ ->.
      apply runStep_inv in E2 as [(e' & He & _ & [= <-]) | (i & _ & X)]; [eauto 10 |].
      rewrite enrich_execute in X. injection X as _ X.
      destruct (outcome _) as [a|e'] eqn:A; [discriminate X |]. injection X as ->.
      apply adapter_Err in A as [A | [A | A]]; eauto 10. }
  destruct (runStep (summarizeAndNotifyStep v w env) _) as [t3 r3] eqn:E3.
  injection H as _ ->.
  apply runStep_inv in E3 as [(e' & He & _ & [= <-]) | (d & _ & X)]; [eauto 10 |].
  destruct (slackWebhook env) as [hook|] eqn:EH.
  - rewrite (summarize_with_webhook v w env hook d EH) in X. injection X as _ X.
    destruct (send w hook _ _) as [u|e'] eqn:S; [discriminate X |].
    injection X as ->. do 6 right. left. eauto.
  - rewrite (summarize_without_webhook v w env d EH) in X. discriminate X.
Qed.

Lemma run_errors_witness :
  generateObject_CaseList textWorld caseListSchema
    (collect_params CommerceInfluencer (sampleEnv "gpt-5-mini" None)
       {| focusKeyword := "コマース x インフルエンサー"; inputGeography := "Japan";
          minExamples := 3; inputLanguage := ja;
          inputMetricFocus := ["売上"; "CVR"; "ROI"]; inputIncludeSources := true |})
  = Err (UpstreamError "400 Bad Request").
Proof.
  destruct (run_errors CommerceInfluencer textWorld (sampleEnv "gpt-5-mini" None)
              (JObj []) _ (UpstreamError "400 Bad Request") eq_refl)
    as [H | [[? H] | [[? H] | [[? H] | [[? H] | [[? H] | [(? & ? & ? & H) | (? & H & ?)]]]]]]];
    reflexivity.
Defined.

(** ** The two metric schemas *)

Lemma currencySchema_agree (j : json) :
  j <> JNull -> currencySchema CommerceInfluencer j = currencySchema MarketResearch j.
Proof. destruct j; intros H; try reflexivity. congruence. Qed.

(** X7.  The metric schemas of the two workflows differ on a [null]
    currency and on nothing else: on an object whose [currency] is not
    [null] they answer the same, value or error; an object whose [currency]
    is [null] is rejected by the commerce-influencer schema, and read with
    a [null] currency by the market-research schema. *)
Theorem metric_schemas_differ_on_null (fields : list (string * json)) :
  (prop "currency" fields <> JNull ->
     metricSchema CommerceInfluencer (JObj fields) = metricSchema MarketResearch (JObj fields))
  /\ (prop "currency" fields = JNull ->
        isOk (metricSchema CommerceInfluencer (JObj fields)) = false
        /\ (forall m, metricSchema MarketResearch (JObj fields) = Ok m ->
                      currency m = Some None)
        /\ (forall mt vl, prop "metric" fields = JStr mt -> prop "value" fields = JStr vl ->
              prop "timeframe" fields = JUndefined -> prop "note" fields = JUndefined ->
              metricSchema MarketResearch (JObj fields)
              = Ok {| metric := mt; value := vl; currency := Some None;
                      metricTimeframe := None; note := None |})).
Proof.
  split.
  - intros H. unfold metricSchema, field. cbn [z_object mbind result_bind].
    now rewrite (currencySchema_agree _ H).
  - intros H. unfold metricSchema, field. cbn [z_object mbind result_bind].
    rewrite H. split; [| split].
    + destruct (z_string (prop "metric" fields)); [| reflexivity].
      destruct (z_string (prop "value" fields)); reflexivity.
    + intros m Hm. parse_ok Hm. injection Hm as <-. cbn [currency].
      match goal with Q : currencySchema _ JNull = Ok _ |- _ => now injection Q end.
    + intros mt vl -> -> -> ->. reflexivity.
Qed.

Lemma metric_schemas_differ_on_null_witness :
  metricSchema MarketResearch
    (JObj [("metric", JStr "CVR"); ("value", JStr "3%"); ("currency", JNull)])
  = Ok {| metric := "CVR"; value := "3%"; currency := Some None;
          metricTimeframe := None; note := None |}
  /\ isOk (metricSchema CommerceInfluencer
             (JObj [("metric", JStr "CVR"); ("value", JStr "3%"); ("currency", JNull)]))
     = false.
Proof.
  destruct (proj2 (metric_schemas_differ_on_null
                     [("metric", JStr "CVR"); ("value", JStr "3%"); ("currency", JNull)])
              eq_refl) as (H1 & _ & H3).
  split; [exact (H3 "CVR" "3%" eq_refl eq_refl eq_refl eq_refl) | exact H1].
Defined.

(** ** The checked workflow input *)

Lemma z_default_Ok {T} (d : T) (s : Schema T) (j : json) (x : T) :
  z_default d s j = Ok x -> (j = JUndefined /\ x = d) \/ (j <> JUndefined /\ s j = Ok x).
Proof.
  destruct j; simpl; intros H; try (right; split; [discriminate | exact H]).
  left. split; [reflexivity | now injection H].
Qed.

Lemma z_int_range_Ok (lo hi : Z) (j : json) (z : Z) :
  z_int_range lo hi j = Ok z -> (lo <= z <= hi)%Z.
Proof.
  destruct j as [| |b|x|s|l|o]; try discriminate. simpl.
  destruct (negb _); [discriminate |].
  destruct (Z.ltb_spec (Qnum (Qred x)) lo); [discriminate |].
  destruct (Z.ltb_spec hi (Qnum (Qred x))); [discriminate |].
  intros [= <-]. lia.
Qed.

(** The fields of a checked workflow input, read one by one. *)
Lemma collect_inputSchema_Ok (v : Variant) (w : World) (env : Env)
    (fields : list (string * json)) (i : WorkflowInput) :
  inputSchema (collectStep v w env) (JObj fields) = Ok i ->
  match v with
  | CommerceInfluencer =>
      z_default "コマース x インフルエンサー" z_string (prop "focusKeyword" fields)
  | MarketResearch => z_string_min 1 "focusKeyword is required" (prop "focusKeyword" fields)
  end = Ok (focusKeyword i)
  /\ z_default "Japan" z_string (prop "geography" fields) = Ok (inputGeography i)
  /\ z_default 3%Z (z_int_range 1 6) (prop "minExamples" fields) = Ok (minExamples i)
  /\ z_default ja languageSchema (prop "language" fields) = Ok (inputLanguage i)
  /\ z_default match v with
               | CommerceInfluencer => ["売上"; "CVR"; "ROI"]
               | MarketResearch => ["売上"; "GMV"; "CVR"]
               end (z_min 1 (z_array z_string)) (prop "metricFocus" fields)
     = Ok (inputMetricFocus i)
  /\ z_default true z_boolean (prop "includeSources" fields) = Ok (inputIncludeSources i).
Proof.
  destruct v; simpl; intros H;
    [unfold collectCompetitorCasesStep_inputSchema in H
    | unfold collectCasesStep_inputSchema in H];
    unfold field in H; cbn [z_object mbind result_bind] in H;
    parse_ok H; injection H as <-; simpl; repeat split; assumption.
Qed.

(** X8.  A workflow input that passed the input check of Stage 1 has
    [minExamples] between 1 and 6 and a non-empty [metricFocus]; in the
    market-research workflow its [focusKeyword] is not empty. *)
Theorem checked_input_bounds (v : Variant) (w : World) (env : Env)
    (fields : list (string * json)) (i : WorkflowInput) :
  inputSchema (collectStep v w env) (JObj fields) = Ok i ->
  (1 <= minExamples i <= 6)%Z
  /\ 1 <= length (inputMetricFocus i)
  /\ (v = MarketResearch -> focusKeyword i <> "").
Proof.
  intros H. apply collect_inputSchema_Ok in H as (Hk & _ & Hn & _ & Hm & _).
  split; [| split].
  - apply z_default_Ok in Hn as [[_ ->] | [_ Hn]]; [lia |].
    exact (z_int_range_Ok _ _ _ _ Hn).
  - apply z_default_Ok in Hm as [[_ ->] | [_ Hm]]; [destruct v; simpl; lia |].
    now apply z_min_Ok in Hm.
  - intros ->. apply z_string_min_Ok in Hk as [_ Hk]. intros E. rewrite E in Hk.
    simpl in Hk. lia.
Qed.

Lemma checked_input_bounds_witness :
  exists i,
    inputSchema (collectStep MarketResearch (sampleWorld [] []) (sampleEnv "gpt-4o-mini" None))
      (JObj [("focusKeyword", JStr "SaaS x AI"); ("minExamples", JNum (6 # 1))]) = Ok i
    /\ (1 <= minExamples i <= 6)%Z.
Proof.
  eexists. split; [reflexivity |].
  exact (proj1 (checked_input_bounds MarketResearch (sampleWorld [] [])
                  (sampleEnv "gpt-4o-mini" None)
                  [("focusKeyword", JStr "SaaS x AI"); ("minExamples", JNum (6 # 1))]
                  _ eq_refl)).
Defined.

(** X9.  In a checked workflow input, a field that the input object lacks
    has its default: "Japan", 3, "ja", true; for [metricFocus], 売上, CVR,
    ROI in the commerce-influencer workflow and 売上, GMV, CVR in the
    market-research workflow; for [focusKeyword], in the commerce-influencer
    workflow only, 'コマース x インフルエンサー'.  A string, boolean or language
    that the object gives is kept as it is. *)
Theorem checked_input_defaults (v : Variant) (w : World) (env : Env)
    (fields : list (string * json)) (i : WorkflowInput) :
  inputSchema (collectStep v w env) (JObj fields) = Ok i ->
  (prop "geography" fields = JUndefined -> inputGeography i = "Japan")
  /\ (prop "minExamples" fields = JUndefined -> minExamples i = 3%Z)
  /\ (prop "language" fields = JUndefined -> inputLanguage i = ja)
  /\ (prop "includeSources" fields = JUndefined -> inputIncludeSources i = true)
  /\ (prop "metricFocus" fields = JUndefined ->
        inputMetricFocus i = match v with
                             | CommerceInfluencer => ["売上"; "CVR"; "ROI"]
                             | MarketResearch => ["売上"; "GMV"; "CVR"]
                             end)
  /\ (v = CommerceInfluencer -> prop "focusKeyword" fields = JUndefined ->
        focusKeyword i = "コマース x インフルエンサー")
  /\ (forall s, prop "focusKeyword" fields = JStr s -> focusKeyword i = s)
  /\ (forall s, prop "geography" fields = JStr s -> inputGeography i = s)
  /\ (forall b, prop "includeSources" fields = JBool b -> inputIncludeSources i = b)
  /\ (prop "language" fields = JStr "en" -> inputLanguage i = en).
Proof.
  intros H. apply collect_inputSchema_Ok in H as (Hk & Hg & Hn & Hl & Hm & Hi).
  repeat split.
  - intros E. rewrite E in Hg. now injection Hg.
  - intros E. rewrite E in Hn. now injection Hn.
  - intros E. rewrite E in Hl. now injection Hl.
  - intros E. rewrite E in Hi. now injection Hi.
  - intros E. rewrite E in Hm. now injection Hm.
  - intros -> E. rewrite E in Hk. now injection Hk.
  - intros s E. rewrite E in Hk. destruct v.
    + now injection Hk.
    + now apply z_string_min_Ok in Hk as [[= ->] _].
  - intros s E. rewrite E in Hg. now injection Hg.
  - intros b E. rewrite E in Hi. now injection Hi.
  - intros E. rewrite E in Hl. now injection Hl.
Qed.

Lemma checked_input_defaults_witness :
  exists i,
    inputSchema (collectStep CommerceInfluencer (sampleWorld [] [])
                   (sampleEnv "gpt-4o-mini" None)) (JObj [("language", JStr "en")]) = Ok i
    /\ inputMetricFocus i = ["売上"; "CVR"; "ROI"]
    /\ inputLanguage i = en.
Proof.
  eexists. split; [reflexivity |].
  destruct (checked_input_defaults CommerceInfluencer (sampleWorld [] [])
              (sampleEnv "gpt-4o-mini" None) [("language", JStr "en")] _ eq_refl)
    as (_ & _ & _ & _ & Hm & _ & _ & _ & _ & Hl).
  split; [exact (Hm eq_refl) | exact (Hl eq_refl)].
Defined.

(** ** Sources in the summary *)

Lemma append_not_nil (a b : string) : a <> "" -> a +:+ b <> "".
Proof. destruct a; [congruence | discriminate]. Qed.

(** X10.  For data that passed the input check of Stage 3, the summary of
    a case ends with a sources line exactly when [includeSources] is true
    and the case has [sources]: a case that passed the check cannot have an
    empty list of sources. *)
Theorem sources_line_shown (v : Variant) (j : json) (d : StageData EnrichedCase) :
  stageDataSchema (enrichedCaseSchema v) j = Ok d ->
  Forall (fun c =>
            sources (base c) <> Some []
            /\ (sourcesLine (includeSources d) (language d) c = ""
                <-> includeSources d = false \/ sources (base c) = None))
         (cases d).
Proof.
  intros H.
  assert (P : forall j c, enrichedCaseSchema v j = Ok c -> sources (base c) <> Some []).
  { intros j' c Hc. unfold enrichedCaseSchema in Hc. apply bind_Ok in Hc as (b & Hb & Hc).
    parse_ok Hc. injection Hc as <-. exact (baseCaseSchema_sources _ _ Hb). }
  destruct (stageDataSchema_Ok _ _ _ _ P H) as [_ HF].
  eapply Forall_impl; [exact HF |]. intros c Hc. split; [exact Hc |].
  unfold sourcesLine. destruct (sources (base c)) as [[|u us]|] eqn:E; [congruence | |].
  - destruct (includeSources d); simpl.
    + split; [| intros [[=] | [=]]]. intros E'. exfalso. revert E'.
      apply append_not_nil. discriminate.
    + split; auto.
  - destruct (includeSources d); simpl; split; auto.
Qed.

Lemma sources_line_shown_witness :
  sourcesLine true en sampleEnriched
  = nl +:+ "Sources: https://a.example, https://b.example"
  /\ (sourcesLine true en sampleEnriched = ""
      <-> true = false \/ sources (base sampleEnriched) = None).
Proof.
  split; [reflexivity |].
  pose proof (sources_line_shown MarketResearch
                (json_of_stageData json_of_enrichedCase (sampleStage3Input 1))
                (sampleStage3Input 1) eq_refl) as H.
  inversion H as [|c l [_ Hc] _]. exact Hc.
Defined.

(** ** The environment *)

Lemma z_url_Ok (isUrl : string -> bool) (j : json) (u : string) :
  z_url isUrl j = Ok u -> j = JStr u /\ isUrl u = true.
Proof.
  unfold z_url. intros H. apply bind_Ok in H as (s & Hs & H).
  destruct j; try discriminate Hs. injection Hs as ->.
  destruct (isUrl s) eqn:E; [| discriminate H]. injection H as <-. auto.
Qed.

Lemma envSchema_Ok (isUrl : string -> bool) (fields : list (string * json)) (env : Env) :
  envSchema isUrl (JObj fields) = Ok env ->
  z_string_min 1 "OPENAI_API_KEY is required" (prop "OPENAI_API_KEY" fields)
  = Ok (OPENAI_API_KEY env)
  /\ z_default "gpt-4o-mini" z_string (prop "OPENAI_MODEL" fields) = Ok (OPENAI_MODEL env)
  /\ z_optional (z_url isUrl) (prop "SLACK_WEBHOOK_URL" fields) = Ok (SLACK_WEBHOOK_URL env)
  /\ z_optional z_string (prop "SLACK_USERNAME" fields) = Ok (SLACK_USERNAME env).
Proof.
  unfold envSchema, field. cbn [z_object mbind result_bind]. intros H.
  parse_ok H. injection H as <-. simpl. repeat split; assumption.
Qed.

Lemma envSchema_webhook (isUrl : string -> bool) (fields : list (string * json))
    (env : Env) (u : string) :
  envSchema isUrl (JObj fields) = Ok env ->
  SLACK_WEBHOOK_URL env = Some u ->
  prop "SLACK_WEBHOOK_URL" fields = JStr u /\ isUrl u = true.
Proof.
  intros H E. apply envSchema_Ok in H as (_ & _ & Hu & _).
  rewrite E in Hu. unfold z_optional in Hu.
  destruct (prop "SLACK_WEBHOOK_URL" fields) eqn:P; try discriminate Hu;
    apply fmap_Ok in Hu as (u' & Hu & [= ->]); apply z_url_Ok in Hu as [Hu Hi];
    try discriminate Hu. injection Hu as ->. auto.
Qed.

(** X11.  An environment that [envSchema] accepted has a non-empty API key;
    its webhook URL, if any, is the string the process environment gave and
    a URL, and it has none exactly when the process environment gave none;
    when the process environment names no model, the model is
    "gpt-4o-mini" and both workflows call the model in structured mode. *)
Theorem env_checked (isUrl : string -> bool) (fields : list (string * json)) (env : Env) :
  envSchema isUrl (JObj fields) = Ok env ->
  OPENAI_API_KEY env <> ""
  /\ prop "OPENAI_API_KEY" fields = JStr (OPENAI_API_KEY env)
  /\ (forall u, SLACK_WEBHOOK_URL env = Some u ->
                prop "SLACK_WEBHOOK_URL" fields = JStr u /\ isUrl u = true)
  /\ (SLACK_WEBHOOK_URL env = None <-> prop "SLACK_WEBHOOK_URL" fields = JUndefined)
  /\ (prop "OPENAI_MODEL" fields = JUndefined ->
        OPENAI_MODEL env = "gpt-4o-mini" /\ forall v, textMode v env = false).
Proof.
  intros H. pose proof (envSchema_webhook isUrl fields env) as Hw.
  specialize (fun u => Hw u H).
  apply envSchema_Ok in H as (Hk & Hm & Hu & _).
  apply z_string_min_Ok in Hk as [Hk Hlen].
  split; [| split; [| split; [| split]]].
  - intros E. rewrite E in Hlen. simpl in Hlen. lia.
  - exact Hk.
  - exact Hw.
  - split.
    + intros E. rewrite E in Hu. unfold z_optional in Hu.
      destruct (prop "SLACK_WEBHOOK_URL" fields); try reflexivity;
        apply fmap_Ok in Hu as (u' & _ & [=]).
    + intros E. rewrite E in Hu. now injection Hu.
  - intros E. rewrite E in Hm. injection Hm as Hm. split; [now rewrite <- Hm |].
    intros v. destruct v; unfold textMode, isSearchModel, isNonStructuredModel, MODEL_NAME;
      rewrite <- Hm; reflexivity.
Qed.

Lemma env_checked_witness :
  envSchema (fun _ => true) (JObj [("OPENAI_API_KEY", JStr "sk-test")])
  = Ok {| OPENAI_API_KEY := "sk-test"; OPENAI_MODEL := "gpt-4o-mini";
          SLACK_WEBHOOK_URL := None; SLACK_USERNAME := None |}
  /\ textMode MarketResearch
       {| OPENAI_API_KEY := "sk-test"; OPENAI_MODEL := "gpt-4o-mini";
          SLACK_WEBHOOK_URL := None; SLACK_USERNAME := None |} = false.
Proof.
  split; [reflexivity |].
  exact (proj2 (proj2 (proj2 (proj2 (proj2
    (env_checked (fun _ => true) [("OPENAI_API_KEY", JStr "sk-test")] _ eq_refl))))
    eq_refl) MarketResearch).
Defined.

(** X12.  [envSchema] rejects a process environment without API key or with
    an empty one, the latter with the message 'OPENAI_API_KEY is required';
    it also rejects one whose webhook URL is set but is not a URL, although
    the webhook is optional. *)
Theorem env_rejected (isUrl : string -> bool) (fields : list (string * json)) :
  (prop "OPENAI_API_KEY" fields = JStr "" ->
     envSchema isUrl (JObj fields) = Err (ZodError "OPENAI_API_KEY is required"))
  /\ (prop "OPENAI_API_KEY" fields = JUndefined -> isOk (envSchema isUrl (JObj fields)) = false)
  /\ (forall u, prop "SLACK_WEBHOOK_URL" fields = JStr u -> isUrl u = false ->
                isOk (envSchema isUrl (JObj fields)) = false).
Proof.
  unfold envSchema, field. cbn [z_object mbind result_bind]. split; [| split].
  - now intros ->.
  - now intros ->.
  - intros u -> Hu.
    destruct (z_string_min _ _ _); [| reflexivity]. cbn [mbind result_bind].
    destruct (z_default _ _ _); [| reflexivity]. cbn [mbind result_bind].
    unfold z_optional, z_url. cbn [z_string mbind result_bind]. now rewrite Hu.
Qed.

Lemma env_rejected_witness :
  isOk (envSchema (fun u => startsWith "https://" u)
          (JObj [("OPENAI_API_KEY", JStr "sk-test"); ("SLACK_WEBHOOK_URL", JStr "hooks")]))
  = false.
Proof.
  exact (proj2 (proj2 (env_rejected (fun u => startsWith "https://" u)
                         [("OPENAI_API_KEY", JStr "sk-test");
                          ("SLACK_WEBHOOK_URL", JStr "hooks")]))
           "hooks" eq_refl eq_refl).
Defined.

(** X13.  With an environment that [envSchema] accepted, the URL test
    rejecting the empty string, the webhook client exists exactly when a
    webhook URL is set; it then posts to that URL, under [SLACK_USERNAME]
    if that is set (even to the empty string) and under
    'mastra-commerce-workflow' otherwise, in both workflows. *)
Theorem webhook_client (isUrl : string -> bool) (fields : list (string * json)) (env : Env) :
  isUrl "" = false ->
  envSchema isUrl (JObj fields) = Ok env ->
  slackWebhook env
  = match SLACK_WEBHOOK_URL env with
    | Some u => Some {| url := u;
                        username := match SLACK_USERNAME env with
                                    | Some n => n
                                    | None => "mastra-commerce-workflow"
                                    end |}
    | None => None
    end
  /\ (hasWebhook env = true <-> SLACK_WEBHOOK_URL env <> None).
Proof.
  intros Hempty H. pose proof (envSchema_webhook isUrl fields env) as Hu.
  unfold hasWebhook, slackWebhook. destruct (SLACK_WEBHOOK_URL env) as [u|]; simpl.
  - destruct (Hu u H eq_refl) as [_ Hi]. destruct u as [|a u]; [congruence |]. simpl.
    split; [reflexivity |]. split; [discriminate | reflexivity].
  - split; [reflexivity |]. split; [discriminate | congruence].
Qed.

Lemma webhook_client_witness :
  slackWebhook {| OPENAI_API_KEY := "sk-test"; OPENAI_MODEL := "gpt-4o-mini";
                  SLACK_WEBHOOK_URL := Some "https://hooks.slack.example/T0/B0";
                  SLACK_USERNAME := Some "" |}
  = Some {| url := "https://hooks.slack.example/T0/B0"; username := "" |}.
Proof.
  exact (proj1 (webhook_client (fun u => startsWith "https://" u)
                  [("OPENAI_API_KEY", JStr "sk-test");
                   ("SLACK_WEBHOOK_URL", JStr "https://hooks.slack.example/T0/B0");
                   ("SLACK_USERNAME", JStr "")] _ eq_refl eq_refl)).
Defined.

(** ** The runners *)

Lemma prop_no_key (k : string) (fields : list (string * json)) :
  hasKey k fields = false -> prop k fields = JUndefined.
Proof.
  induction fields as [|[k' x] rest IH]; [reflexivity |]. simpl.
  destruct (String.eqb k k'); [discriminate | exact IH].
Qed.

Lemma prop_app (k : string) (a b : list (string * json)) :
  prop k (a ++ b) = if hasKey k a then prop k a else prop k b.
Proof.
  induction a as [|[k' x] a IH]; [reflexivity |]. simpl.
  destruct (String.eqb k k'); [reflexivity | exact IH].
Qed.

Lemma prop_spread (k : string) (a b : list (string * json)) :
  prop k (spread a b) = if hasKey k b then prop k b else prop k a.
Proof.
  unfold spread. rewrite prop_app.
  assert (Hmap : hasKey k (map (fun kv => (fst kv, if hasKey (fst kv) b
                                                    then prop (fst kv) b else snd kv)) a)
                 = hasKey k a).
  { induction a as [|[k' x] a IH]; [reflexivity |]. simpl. now rewrite IH. }
  rewrite Hmap. clear Hmap. destruct (hasKey k a) eqn:Ha.
  - induction a as [|[k' x] a IH]; [discriminate Ha |]. simpl in *.
    destruct (String.eqb_spec k k') as [<- | Hne]; [reflexivity |]. exact (IH Ha).
  - rewrite (prop_no_key k a Ha).
    assert (Hb : prop k (List.filter (fun kv => negb (hasKey (fst kv) a)) b) = prop k b).
    { induction b as [|[k' x] b IH]; [reflexivity |]. simpl.
      destruct (String.eqb_spec k k') as [<- | Hne].
      - rewrite Ha. simpl. now rewrite String.eqb_refl.
      - destruct (negb (hasKey k' a)); simpl; [| exact IH].
        destruct (String.eqb_spec k k'); [contradiction | exact IH]. }
    rewrite Hb. destruct (hasKey k b) eqn:Hkb; [reflexivity |].
    exact (prop_no_key k b Hkb).
Qed.

(** X14.  A runner merges the overrides over its defaults: each property of
    the workflow input is the override's if the overrides have the key and
    the runner's default otherwise.  So a field that the overrides lack
    reaches Stage 1 with the runner's default, in both workflows: the
    default [metricFocus] of a run started by a runner is 売上, GMV, CVR,
    also in the commerce-influencer workflow, and the market-research
    workflow cannot miss its [focusKeyword].  With no overrides the input
    passes the input check.  The runner returns what the run returned and
    throws what the run threw. *)
Theorem runner_defaults (v : Variant) (w : World) (env : Env)
    (stringify2 : json -> string) (overrides : list (string * json)) :
  let input := spread defaultInput overrides in
  (forall k, prop k input = if hasKey k overrides then prop k overrides
                            else prop k defaultInput)
  /\ snd (runWorkflow v w env stringify2 overrides) = outcome (workflow v w env (JObj input))
  /\ (forall i, inputSchema (collectStep v w env) (JObj input) = Ok i ->
        (hasKey "focusKeyword" overrides = false ->
           focusKeyword i = "コマース x インフルエンサー")
        /\ (hasKey "geography" overrides = false -> inputGeography i = "Japan")
        /\ (hasKey "minExamples" overrides = false -> minExamples i = 3%Z)
        /\ (hasKey "language" overrides = false -> inputLanguage i = ja)
        /\ (hasKey "metricFocus" overrides = false ->
              inputMetricFocus i = ["売上"; "GMV"; "CVR"])
        /\ (hasKey "includeSources" overrides = false -> inputIncludeSources i = true))
  /\ (overrides = [] ->
        inputSchema (collectStep v w env) (JObj input)
        = Ok {| focusKeyword := "コマース x インフルエンサー"; inputGeography := "Japan";
                minExamples := 3; inputLanguage := ja;
                inputMetricFocus := ["売上"; "GMV"; "CVR"];
                inputIncludeSources := true |}).
Proof.
  intros input. split; [| split; [| split]].
  - intros k. apply prop_spread.
  - unfold runWorkflow, start. fold input.
    destruct (workflow v w env (JObj input)) as [t [res|e]]; reflexivity.
  - intros i H. apply collect_inputSchema_Ok in H as (Hk & Hg & Hn & Hl & Hm & Hi).
    subst input. rewrite prop_spread in Hk, Hg, Hn, Hl, Hm, Hi.
    repeat split; intros E; rewrite E in *.
    + destruct v; [now injection Hk | now apply z_string_min_Ok in Hk as [[= ->] _]].
    + now injection Hg.
    + now injection Hn.
    + now injection Hl.
    + now injection Hm.
    + now injection Hi.
  - intros ->. destruct v; reflexivity.
Qed.

Lemma runner_defaults_witness :
  exists i,
    inputSchema (collectStep CommerceInfluencer (sampleWorld [] []) (sampleEnv "gpt-4o-mini" None))
      (JObj (spread defaultInput [("geography", JStr "APAC"); ("minExamples", JNum (4 # 1))]))
    = Ok i
    /\ inputGeography i = "APAC"
    /\ inputMetricFocus i = ["売上"; "GMV"; "CVR"].
Proof.
  eexists. split; [reflexivity |]. split; [reflexivity |].
  destruct (runner_defaults CommerceInfluencer (sampleWorld [] []) (sampleEnv "gpt-4o-mini" None)
              (fun _ => "") [("geography", JStr "APAC"); ("minExamples", JNum (4 # 1))])
    as (_ & _ & H & _).
  destruct (H _ eq_refl) as (_ & _ & _ & _ & Hm & _). exact (Hm eq_refl).
Defined.

(** ** What is sent and what is returned *)

(** X15.  [sentToSlack] tells what the run did.  When it is true, the last
    thing the run did was the one call of the webhook, with the returned
    summary as text and the blocks of the returned cases, in the language
    of the checked input.  When it is false, the run called no webhook and
    its last act was the warning that the notification is skipped. *)
Theorem sent_is_returned (v : Variant) (w : World) (env : Env) (inputData : json)
    (t : list Event) (res : WorkflowResult) :
  workflow v w env inputData = (t, Ok res) ->
  exists i t0,
    inputSchema (collectStep v w env) inputData = Ok i
    /\ existsb isWebhookSend t0 = false
    /\ (sentToSlack res = true ->
          exists hook,
            slackWebhook env = Some hook
            /\ t = t0 ++ [WebhookSend hook (resultSummary res)
                            (blocks (inputLanguage i) (resultCases res))])
    /\ (sentToSlack res = false ->
          slackWebhook env = None /\ t = t0 ++ [ConsoleWarn skipWarning]).
Proof.
  intros H.
  apply run_Ok_inv in H as (i & answer1 & answer2 & t3 & Hi & A1 & A2 & X3 & ->).
  cbn zeta in *.
  set (call1 := generateStructuredObject w v env (generateObject_CaseList w) _ _) in *.
  set (call2 := generateStructuredObject w v env (generateObject_EnrichedCaseList w) _ _) in *.
  exists i, (trace call1 ++ trace call2). split; [exact Hi |]. split.
  { rewrite existsb_app. unfold call1, call2. now rewrite !adapter_no_send. }
  rewrite app_assoc.
  destruct (slackWebhook env) as [hook|] eqn:EH.
  - rewrite (summarize_with_webhook v w env hook _ EH) in X3.
    cbn [cases language includeSources] in X3.
    destruct (send w hook _ _); [| discriminate X3]. injection X3 as <- <-.
    cbn [sentToSlack resultSummary resultCases]. split; [| discriminate].
    intros _. exists hook. split; reflexivity.
  - rewrite (summarize_without_webhook v w env _ EH) in X3. injection X3 as <- <-.
    cbn [sentToSlack]. split; [discriminate |]. intros _. split; reflexivity.
Qed.

Lemma sent_is_returned_witness :
  let hook := {| url := "https://hooks.slack.example/T0/B0";
                 username := "mastra-commerce-workflow" |} in
  let run := workflow MarketResearch textWorld
               (sampleEnv "gpt-5-mini" (Some "https://hooks.slack.example/T0/B0"))
               (JObj [("focusKeyword", JStr "SaaS x AI")]) in
  exists t0 res,
    outcome run = Ok res
    /\ trace run = t0 ++ [WebhookSend hook (resultSummary res) (blocks ja (resultCases res))].
Proof.
  intros hook run. subst run.
  destruct (workflow MarketResearch textWorld
              (sampleEnv "gpt-5-mini" (Some "https://hooks.slack.example/T0/B0"))
              (JObj [("focusKeyword", JStr "SaaS x AI")])) as [t [res|e]] eqn:E;
    [| vm_compute in E; discriminate E].
  destruct (sent_is_returned _ _ _ _ _ _ E) as (i & t0 & Hi & _ & Hs & _).
  assert (S : sentToSlack res = true) by (vm_compute in E; now injection E as _ <-).
  destruct (Hs S) as (hook' & Hh & Ht).
  assert (L : inputLanguage i = ja) by (vm_compute in Hi; now injection Hi as <-).
  rewrite L in Ht. injection Hh as <-.
  exists t0, res. split; [reflexivity | exact Ht].
Defined.

(** ** Empty answers *)




(** ** The calls of the model *)

Lemma adapter_calls {T} (w : World) (v : Variant) (env : Env)
    (g : Schema T -> GenerateParams -> result T) (schema : Schema T)
    (params : GenerateParams) :
  Forall (fun ev => isModelCall ev = true ->
                    modelOf ev = Some (model params) /\ isTextCall ev = textMode v env)
    (trace (generateStructuredObject w v env g schema params)).
Proof.
  destruct (textMode v env) eqn:E.
  - rewrite (adapter_text w v env g schema params E).
    destruct (generateText w _) as [text|e].
    + destruct (JSON_parse w text ≫= schema).
      * repeat constructor.
      * constructor; [now split |].
        destruct v; repeat constructor; discriminate.
    + repeat constructor.
  - rewrite (adapter_structured w v env g schema params E). repeat constructor.
Qed.

(** X17.  Every call of the model in a run names the configured model
    [OPENAI_MODEL], and a run does not mix the two ways of calling: all its
    calls are calls of [generateText] in text mode and calls of
    [generateObject] otherwise. *)
Theorem calls_name_configured_model (v : Variant) (w : World) (env : Env)
    (inputData : json) :
  Forall (fun ev => isModelCall ev = true ->
                    modelOf ev = Some (OPENAI_MODEL env)
                    /\ isTextCall ev = textMode v env)
    (trace (workflow v w env inputData)).
Proof.
  assert (S1 : forall data t r, runStep (collectStep v w env) data = (t, r) ->
            Forall (fun ev => isModelCall ev = true ->
                      modelOf ev = Some (OPENAI_MODEL env)
                      /\ isTextCall ev = textMode v env) t).
  { intros data t r H.
    apply runStep_inv in H as [(e & _ & -> & _) | (i & _ & H)]; [constructor |].
    rewrite collect_execute in H. injection H as <- _.
    pose proof (adapter_calls w v env (generateObject_CaseList w) caseListSchema
                  (collect_params v env i)) as A.
    now destruct v. }
  assert (S2 : forall data t r, runStep (enrichCasesWithMetricsStep v w env) data = (t, r) ->
            Forall (fun ev => isModelCall ev = true ->
                      modelOf ev = Some (OPENAI_MODEL env)
                      /\ isTextCall ev = textMode v env) t).
  { intros data t r H.
    apply runStep_inv in H as [(e & _ & -> & _) | (i & _ & H)]; [constructor |].
    rewrite enrich_execute in H. injection H as <- _.
    exact (adapter_calls w v env (generateObject_EnrichedCaseList w)
             (enrichedCaseListSchema v) (enrichCases_params v w env i)). }
  rewrite workflow_steps.
  destruct (runStep (collectStep v w env) inputData) as [t1 r1] eqn:E1.
  pose proof (S1 _ _ _ E1) as F1.
  destruct r1 as [out1|e]; [| exact F1].
  destruct (runStep (enrichCasesWithMetricsStep v w env) _) as [t2 r2] eqn:E2.
  pose proof (S2 _ _ _ E2) as F2.
  destruct r2 as [out2|e]; [| apply Forall_app; auto].
  destruct (runStep (summarizeAndNotifyStep v w env) _) as [t3 r3] eqn:E3.
  unfold trace; cbn [fst]. apply Forall_app; split; [exact F1 |].
  apply Forall_app; split; [exact F2 |].
  apply summarize_events in E3
    as [[-> _] | [(hook & text & bs & _ & ->) | (_ & -> & _)]];
    repeat constructor; discriminate.
Qed.

(** ** What the notification shows *)

Lemma imap_map {A B C} (f : nat -> B -> C) (g : A -> B) (l : list A) :
  imap f (map g l) = imap (fun i x => f i (g x)) l.
Proof.
  revert f. induction l as [|x l IH]; intros f; simpl; [reflexivity |].
  now rewrite IH.
Qed.

(** X18.  Of a case, the summary reads the brand, the campaign name, the
    summary, the metrics and the sources, and the blocks read the brand,
    the campaign name, the summary and the name and value of each metric:
    the influencers, geography, timeframe, product focus and offer type of
    a case are in neither, and the currency, timeframe and note of a metric
    and the sources are not in the blocks, whatever [includeSources] is. *)
Theorem notification_reads (inc : bool) (lang : Language) (cs : list EnrichedCase) :
  summaryText inc lang (map shownInSummary cs) = summaryText inc lang cs
  /\ blocks lang (map shownInBlocks cs) = blocks lang cs.
Proof.
  split.
  - unfold summaryText. now rewrite imap_map.
  - unfold blocks. rewrite imap_map. do 2 f_equal.
    apply imap_ext_in. intros i c _. f_equal.
    unfold sectionText, shownInBlocks; cbn [base metrics brand campaignName summary].
    now rewrite map_map.
Qed.
